(** * instagram_enricher.py: the field parser, the sheet writer and the row loop

    A shallow embedding of [src/instagram_enricher.py].  Python strings are
    lists of Unicode code points, the parsed profile is a finite map from
    strings to strings, and the calls that leave the process (the toutatis
    subprocess, the Sheets API, [time.sleep], [print]) are recorded in a trace
    of events; their answers are parameters of the development. *)

From Stdlib Require Import NArith Ascii String DecimalString DecimalNat.
From stdpp Require Import gmap list strings.

(** ** Python strings *)

(** A [str] is a sequence of code points. *)
Abbreviation str := (list N).

(** The code points of a literal. *)
Definition py (s : string) : str :=
  N_of_ascii <$> list_ascii_of_string s.

(** [str(n)] for a non-negative integer. *)
Definition str_of_nat (n : nat) : str :=
  py (NilEmpty.string_of_uint (Nat.to_uint n)).

(** [c.isspace()]: the code points that [str.strip()] removes
    (U+0009..U+000D, U+001C..U+0020, U+0085, U+00A0, U+1680,
    U+2000..U+200A, U+2028, U+2029, U+202F, U+205F, U+3000). *)
Definition isspace (c : N) : bool :=
  ((9 <=? c) && (c <=? 13) || (28 <=? c) && (c <=? 32)
   || (c =? 133) || (c =? 160) || (c =? 5760)
   || (8192 <=? c) && (c <=? 8202)
   || (c =? 8232) || (c =? 8233) || (c =? 8239) || (c =? 8287)
   || (c =? 12288))%N.

Fixpoint lstrip (s : str) : str :=
  match s with
  | [] => []
  | c :: s' => if isspace c then lstrip s' else s
  end.

Definition rstrip (s : str) : str := reverse (lstrip (reverse s)).

(** [s.strip()] *)
Definition strip (s : str) : str := rstrip (lstrip s).

(** [s.startswith(sub)] *)
Fixpoint startswith (sub s : str) : bool :=
  match sub, s with
  | [], _ => true
  | _ :: _, [] => false
  | a :: sub', b :: s' => (a =? b)%N && startswith sub' s'
  end.

(** [s.find(sub)], [None] for Python's [-1]. *)
Fixpoint str_find (sub s : str) : option nat :=
  if startswith sub s then Some 0
  else match s with
       | [] => None
       | _ :: s' => S <$> str_find sub s'
       end.

(** [sub in s] *)
Definition str_in (sub s : str) : bool :=
  match str_find sub s with Some _ => true | None => false end.

(** [s.split(sep, 1)]: one piece when [sep] does not occur, otherwise the
    text before and the text after its first occurrence. *)
Definition split1 (sep s : str) : list str :=
  match str_find sep s with
  | Some i => [take i s; drop (i + length sep) s]
  | None => [s]
  end.

(** [s.split(sep)] for a non-empty [sep]: a left-to-right scan that closes
    the current piece at every occurrence of [sep] and resumes after it.
    [skip] counts the code points of a matched separator still to pass,
    [cur] holds the current piece, last code point first. *)
Fixpoint split_scan (sep : str) (skip : nat) (cur s : str) : list str :=
  match s with
  | [] => [reverse cur]
  | c :: s' =>
      match skip with
      | S n => split_scan sep n cur s'
      | 0 =>
          if startswith sep s
          then reverse cur :: split_scan sep (length sep - 1) [] s'
          else split_scan sep 0 (c :: cur) s'
      end
  end.

Definition str_split (sep s : str) : list str := split_scan sep 0 [] s.

(** ** Exceptions and the effects of the script *)

(** The exceptions the embedded code can meet; all of them are subclasses of
    Python's [Exception].  [ExternalError] stands for whatever a library call
    outside the script raises (the subprocess module, the Sheets client). *)
Inductive exn : Type :=
  | IndexError
  | ValueError
  | ExternalError (what : str).

Inductive result (A : Type) : Type :=
  | Ok (a : A)
  | Raise (e : exn).
Arguments Ok {A} a.
Arguments Raise {A} e.

(** What the script prints, one constructor per [print] call. *)
Inductive message : Type :=
  | SkippingEmptyUsername
  | FetchingData (username : str)
  | ErrorFetching (username stderr : str)
  | ExceptionProcessing (username : str) (e : exn)
  | NoUsernamesFound
  | TestModeFirstRow
  | TakingBreak (seconds : nat)
  | SkippingProcessed (username : str)
  | WaitingBeforeRequest (seconds : nat)
  | UpdatedData (username : str)
  | ErrorProcessingRow (idx : nat) (e : exn)
  | FailedToProcess (e : exn).

(** What the script does to the outside, in the order it does it. *)
Inductive event : Type :=
  | Print (m : message)
  | Sleep (seconds : nat)
  | SubprocessRun (args : list str)
  | SheetGet (spreadsheet_id range : str)
  | SheetUpdate (spreadsheet_id range : str) (values : list (list str)).

(** A computation: the events it performed and how it ended. *)
Definition io (A : Type) : Type := list event * result A.

#[global] Instance io_ret : MRet io := λ A a, ([], Ok a).

#[global] Instance io_bind : MBind io := λ A B f m,
  match m with
  | (t, Ok a) => let '(t', r) := f a in (t ++ t', r)
  | (t, Raise e) => (t, Raise e)
  end.

Definition emit (e : event) : io unit := ([e], Ok tt).
Definition print (m : message) : io unit := emit (Print m).
Definition sleep (seconds : nat) : io unit := emit (Sleep seconds).
Definition raise {A} (e : exn) : io A := ([], Raise e).

(** The answer of a call outside the script, after the event of the call. *)
Definition call {A} (e : event) (answer : result A) : io A := ([e], answer).

(** [try: body  except Exception as e: handler(e)] *)
Definition try_except {A} (body : io A) (handler : exn → io A) : io A :=
  match body with
  | (t, Ok a) => (t, Ok a)
  | (t, Raise e) => let '(t', r) := handler e in (t ++ t', r)
  end.

Definition trace {A} (m : io A) : list event := m.1.
Definition outcome {A} (m : io A) : result A := m.2.

(** [a, b = pieces]: unpacking into two names. *)
Definition unpack2 (pieces : list str) : io (str * str) :=
  match pieces with
  | [a; b] => mret (a, b)
  | _ => raise ValueError
  end.

(** ** The field parser *)

(** The mapping [data] of [get_instagram_data]. *)
Abbreviation dict := (gmap str str).

Definition colon : str := py ":".
Definition pipe : str := py " | ".
Definition newline : str := [10%N].

(** The body of [for part in parts]. *)
Definition parse_part (key : str) (data : dict) (part : str) : io dict :=
  if str_in colon part then
    '(sub_key, sub_value) ← unpack2 (split1 colon (strip part));
    mret (<[strip sub_key := strip sub_value]> data)
  else
    mret (<[key := strip part]> data).

(** A [for] loop that threads the mapping it mutates. *)
Fixpoint for_data {A} (body : dict → A → io dict) (data : dict) (xs : list A)
  : io dict :=
  match xs with
  | [] => mret data
  | x :: xs' => data' ← body data x; for_data body data' xs'
  end.

(** The body of [for line in result.stdout.split('\n')]. *)
Definition parse_line (data : dict) (line : str) : io dict :=
  if str_in colon line then
    '(key, value) ← unpack2 (split1 colon line);
    let key := strip key in
    let value := strip value in
    if str_in pipe value then
      let parts := str_split pipe value in
      for_data (parse_part key) data parts
    else
      mret (<[key := value]> data)
  else
    mret data.

(** Lines 63 to 83: the parse of the captured standard output. *)
Definition parse_stdout (stdout : str) : io dict :=
  for_data parse_line ∅ (str_split newline stdout).

(** ** The profile fetcher *)

(** What [subprocess.run(..., capture_output=True, text=True)] returns. *)
Record completed : Type := Completed {
  returncode : Z;
  stdout : str;
  stderr : str
}.

(** The command line of the lookup tool. *)
Definition toutatis_args (username session_id : str) : list str :=
  [py "toutatis"; py "-u"; strip username; py "-s"; session_id].

(** [get_instagram_data(username, session_id)].  [run] is the answer of
    [subprocess.run] to the command line: a completed process, or an
    exception (the tool is not installed, the output does not decode).
    [None] is Python's [None]. *)
Definition get_instagram_data (run : list str → result completed)
    (username session_id : str) : io (option dict) :=
  match username with
  | [] => print SkippingEmptyUsername;; mret None
  | _ =>
      try_except
        (print (FetchingData username);;
         let args := toutatis_args username session_id in
         result ← call (SubprocessRun args) (run args);
         if bool_decide (returncode result ≠ 0%Z) then
           print (ErrorFetching username (stderr result));; mret None
         else
           data ← parse_stdout (stdout result);
           mret (Some data))
        (λ e, print (ExceptionProcessing username e);; mret None)
  end.

(** ** The sheet writer *)

Definition DEFAULT_SHEET_RANGE : str := py "B2:B".
Definition OUTPUT_RANGE_START : str := py "G".
Definition OUTPUT_RANGE_END : str := py "M".

Definition RATE_LIMIT_DELAY : nat := 30.
Definition BATCH_SIZE : nat := 10.
Definition BATCH_DELAY : nat := 300.

(** A row of the sheet as the API returns it: the cells as strings. *)
Abbreviation row := (list str).

(** [data.get(key, '')] *)
Definition dict_get (data : dict) (key : str) : str :=
  default [] (data !! key).

(** [row[i]] *)
Definition getitem (r : row) (i : nat) : io str :=
  match r !! i with
  | Some cell => mret cell
  | None => raise IndexError
  end.

(** The truth value of a cell: a non-empty string. *)
Definition truthy (cell : str) : bool :=
  match cell with [] => false | _ :: _ => true end.

(** [len(row) > 5 and any(row[5:])] *)
Definition has_data (r : row) : bool :=
  (5 <? length r) && existsb truthy (drop 5 r).

(** The range read at the start of [update_sheet]:
    [f'B2:{OUTPUT_RANGE_END}100']. *)
Definition read_range : str :=
  py "B2:" ++ OUTPUT_RANGE_END ++ py "100".

(** [f'{OUTPUT_RANGE_START}{idx}:S{idx}'] *)
Definition range_name (idx : nat) : str :=
  OUTPUT_RANGE_START ++ str_of_nat idx ++ py ":S" ++ str_of_nat idx.

(** The keys of the thirteen output columns, in the order of the list
    literal [values]. *)
Definition FIELDS : list str :=
  [py "Follower"; py "Following"; py "Number of posts"; py "Biography";
   py "Full Name"; py "Verified"; py "Is private Account";
   py "Is buisness Account"; py "userID"; py "IGTV posts";
   py "Linked WhatsApp"; py "Memorial Account"; py "New Instagram user"].

(** The single row of [values]. *)
Definition row_values (data : dict) : list str :=
  [dict_get data (py "Follower");
   dict_get data (py "Following");
   dict_get data (py "Number of posts");
   dict_get data (py "Biography");
   dict_get data (py "Full Name");
   dict_get data (py "Verified");
   dict_get data (py "Is private Account");
   dict_get data (py "Is buisness Account");
   dict_get data (py "userID");
   dict_get data (py "IGTV posts");
   dict_get data (py "Linked WhatsApp");
   dict_get data (py "Memorial Account");
   dict_get data (py "New Instagram user")].

(** [for idx, row in enumerate(rows, start=idx): body(idx, row)] *)
Fixpoint for_rows (body : nat → row → io unit) (idx : nat) (rows : list row)
  : io unit :=
  match rows with
  | [] => mret tt
  | r :: rest => body idx r;; for_rows body (S idx) rest
  end.

(** The first statement of the loop body:
    [if (idx - 2) % BATCH_SIZE == 0 and idx > 2: print(...); sleep(BATCH_DELAY)] *)
Definition batch_pause (idx : nat) : io unit :=
  if ((idx - 2) mod BATCH_SIZE =? 0) && (2 <? idx) then
    print (TakingBreak BATCH_DELAY);; sleep BATCH_DELAY
  else mret tt.

(** The answers of the world outside the script. *)
Record environment : Type := Environment {
  (** [os.getenv] *)
  getenv : str → option str;
  (** [Credentials(...)], the token refresh and [build('sheets', 'v4', ...)] *)
  build_service : result unit;
  (** [sheet.values().get(spreadsheetId, range).execute().get('values', [])] *)
  values_get : str → str → result (list row);
  (** [sheet.values().update(spreadsheetId, range, 'RAW', body).execute()] *)
  values_update : str → str → list (list str) → result unit;
  (** [subprocess.run] while the sheet row of the given number is processed:
      two rows with one username need not get the same answer. *)
  subprocess_run : nat → list str → result completed
}.

Section Script.

Variable env : environment.

Definition env_set (name : str) : bool :=
  match getenv env name with
  | Some (_ :: _) => true
  | _ => false
  end.

Definition get_google_sheets_service : io unit :=
  if env_set (py "GOOGLE_CLIENT_ID")
     && env_set (py "GOOGLE_CLIENT_SECRET")
     && env_set (py "GOOGLE_REFRESH_TOKEN")
  then ([], build_service env)
  else raise ValueError.

(** The statements inside the [try] of the row loop. *)
Definition row_body (spreadsheet_id session_id : str) (force_update : bool)
    (idx : nat) (r : row) : io unit :=
  batch_pause idx;;
  cell ← getitem r 0;
  let username := strip cell in
  if has_data r && negb force_update then
    print (SkippingProcessed username)
  else
    print (WaitingBeforeRequest RATE_LIMIT_DELAY);;
    sleep RATE_LIMIT_DELAY;;
    data ← get_instagram_data (subprocess_run env idx) username session_id;
    match data with
    | Some data =>
        if bool_decide (data ≠ ∅) then
          let values := [row_values data] in
          call (SheetUpdate spreadsheet_id (range_name idx) values)
               (values_update env spreadsheet_id (range_name idx) values);;
          print (UpdatedData username);;
          sleep 2
        else mret tt
    | None => mret tt
    end.

(** One turn of the row loop: the [try] and its [except Exception]. *)
Definition process_row (spreadsheet_id session_id : str) (force_update : bool)
    (idx : nat) (r : row) : io unit :=
  try_except (row_body spreadsheet_id session_id force_update idx r)
             (λ e, print (ErrorProcessingRow idx e)).

(** [update_sheet(spreadsheet_id, session_id, test_mode, force_update)] *)
Definition update_sheet (spreadsheet_id session_id : str)
    (test_mode force_update : bool) : io unit :=
  get_google_sheets_service;;
  try_except
    (rows ← call (SheetGet spreadsheet_id read_range)
                 (values_get env spreadsheet_id read_range);
     match rows with
     | [] => print NoUsernamesFound
     | _ =>
         rows ← (if test_mode then
                   print TestModeFirstRow;; mret (take 1 rows)
                 else mret rows);
         for_rows (process_row spreadsheet_id session_id force_update) 2 rows
     end)
    (λ e, print (FailedToProcess e)).

End Script.

(** ** The words of the statements *)

(** The two pieces of [s.split(sep, 1)] when [sep] occurs in [s]. *)
Definition before (sep s : str) : str :=
  match str_find sep s with Some i => take i s | None => s end.

Definition after (sep s : str) : str :=
  match str_find sep s with Some i => drop (i + length sep) s | None => [] end.

(** The key and the value of a line that holds a colon. *)
Definition line_key (line : str) : str := strip (before colon line).
Definition line_value (line : str) : str := strip (after colon line).

(** [data[e.1] = e.2] *)
Definition assign (data : dict) (e : str * str) : dict := <[e.1 := e.2]> data.

(** The assignment one part of a piped value makes. *)
Definition part_entry (key part : str) : str * str :=
  if str_in colon part then (line_key (strip part), line_value (strip part))
  else (key, strip part).

(** The assignments one line makes, in order. *)
Definition line_entries (line : str) : list (str * str) :=
  if str_in colon line then
    if str_in pipe (line_value line) then
      part_entry (line_key line) <$> str_split pipe (line_value line)
    else [(line_key line, line_value line)]
  else [].

(** An event that starts the lookup tool or writes to the sheet. *)
Definition is_fetch (e : event) : bool :=
  match e with SubprocessRun _ => true | _ => false end.

Definition is_update (e : event) : bool :=
  match e with SheetUpdate _ _ _ => true | _ => false end.

(** ** Environments and rows of the examples *)

(** An environment that gives one answer to every lookup and one to every
    write, with the credentials set and [rows] in the sheet. *)
Definition fixed_env (rows : list row) (answer : result completed)
    (write : result unit) : environment :=
  {| getenv := λ _, Some (py "set");
     build_service := Ok tt;
     values_get := λ _ _, Ok rows;
     values_update := λ _ _ _, write;
     subprocess_run := λ _ _, answer |}.

(** Two usernames in the sheet; every lookup exits with code 1. *)
Definition env_lookup_fails : environment :=
  fixed_env [[py "ada"]; [py "bob"]]
    (Ok (Completed 1 [] (py "user not found"))) (Ok tt).

(** Two usernames in the sheet; every lookup succeeds and every write
    raises. *)
Definition env_write_fails : environment :=
  fixed_env [[py "ada"]; [py "bob"]]
    (Ok (Completed 0 (py "Follower: 1") []))
    (Raise (ExternalError (py "quota"))).

(** One username in the sheet; the lookup succeeds without a line that holds
    a colon. *)
Definition env_no_colon : environment :=
  fixed_env [[py "ada"]] (Ok (Completed 0 (py "no such user") [])) (Ok tt).

(** A row read from columns B to G whose column G is filled. *)
Definition enriched_row : row := [py "ada"; []; []; []; []; py "120"].

(** An output of the lookup tool with the thirteen fields, one per line. *)
Definition full_stdout : str :=
  py "Follower: 120" ++ newline ++ py "Following: 85" ++ newline
  ++ py "Number of posts: 7" ++ newline ++ py "Biography: Hi" ++ newline
  ++ py "Full Name: Ada L." ++ newline ++ py "Verified: False" ++ newline
  ++ py "Is private Account: False" ++ newline
  ++ py "Is buisness Account: True" ++ newline ++ py "userID: 42" ++ newline
  ++ py "IGTV posts: 0" ++ newline ++ py "Linked WhatsApp: False" ++ newline
  ++ py "Memorial Account: False" ++ newline
  ++ py "New Instagram user: False".

(** One username in the sheet; the lookup prints the thirteen fields. *)
Definition env_full : environment :=
  fixed_env [[py "ada"]] (Ok (Completed 0 full_stdout [])) (Ok tt).

(** Eleven rows that already hold enrichment; no lookup would succeed. *)
Definition env_enriched : environment :=
  fixed_env (replicate 11 enriched_row) (Raise ValueError) (Ok tt).

(** ** The entry point *)

(** The default of [--sheet]. *)
Definition DEFAULT_SPREADSHEET_ID : str :=
  py "1sZLn15IQJmPotCAEMLN66tpOjIef-pT618MLHllIP0k".

(** [get_session_id()] *)
Definition get_session_id (env : environment) : io str :=
  match getenv env (py "INSTAGRAM_SESSION_ID") with
  | Some (c :: s) => mret (c :: s)
  | _ => raise ValueError
  end.

(** What [parser.parse_args()] finds on a command line it accepts: the value
    of [--sheet] and of [--session] when the option is given, and whether
    [--test] and [--force] are. *)
Record command_line : Type := CommandLine {
  opt_sheet : option str;
  opt_session : option str;
  opt_test : bool;
  opt_force : bool
}.

(** The block under [if __name__ == '__main__'].  The default of
    [--session] is the value of the call [get_session_id()], made while the
    parser is built, before the command line is read. *)
Definition main (env : environment) (argv : command_line) : io unit :=
  default_session ← get_session_id env;
  let sheet := default DEFAULT_SPREADSHEET_ID (opt_sheet argv) in
  let session := default default_session (opt_session argv) in
  update_sheet env sheet session (opt_test argv) (opt_force argv).

(** ** More words of the statements *)

(** The ranges of the writes of a trace, in order. *)
Definition update_ranges (t : list event) : list str :=
  omap (λ e, match e with SheetUpdate _ rg _ => Some rg | _ => None end) t.

(** A string without white space at its ends. *)
Definition trimmed (s : str) : Prop := strip s = s.

(** The traces of the turns of the rows from sheet row [idx] on. *)
Definition turn_traces (env : environment) (sid sess : str) (force : bool)
    (idx : nat) (rows : list row) : list (list event) :=
  imap (λ i r, trace (process_row env sid sess force (idx + i) r)) rows.

(** More environments of the examples: no credentials at all; a read that
    raises; a sheet without rows; a blank username. *)
Definition env_no_credentials : environment :=
  {| getenv := λ _, None;
     build_service := Ok tt;
     values_get := λ _ _, Ok [[py "ada"]];
     values_update := λ _ _ _, Ok tt;
     subprocess_run := λ _ _, Ok (Completed 0 full_stdout []) |}.

Definition env_read_fails : environment :=
  {| getenv := λ _, Some (py "set");
     build_service := Ok tt;
     values_get := λ _ _, Raise (ExternalError (py "403"));
     values_update := λ _ _ _, Ok tt;
     subprocess_run := λ _ _, Ok (Completed 0 full_stdout []) |}.

Definition env_empty_sheet : environment :=
  fixed_env [] (Ok (Completed 0 full_stdout [])) (Ok tt).

Definition env_three_rows : environment :=
  fixed_env [[py "ada"]; []; [py "  "]] (Ok (Completed 0 full_stdout []))
    (Ok tt).

(** * Properties *)

(** ** The computation monad *)

Lemma io_ret_bind {A B} (a : A) (f : A → io B) : (mret a ≫= f) = f a.
Proof. unfold mret, io_ret, mbind, io_bind. by destruct (f a). Qed.

Lemma io_bind_ok {A B} (t : list event) (a : A) (f : A → io B) :
  ((t, Ok a) : io A) ≫= f = (t ++ trace (f a), outcome (f a)).
Proof. unfold mbind, io_bind, trace, outcome. by destruct (f a). Qed.

(** ** Strings *)

Lemma startswith_single (c : N) (s : str) :
  startswith [c] s = true ↔ ∃ s', s = c :: s'.
Proof.
  destruct s as [|b s']; simpl.
  - split; [done | by intros [? ?]].
  - rewrite andb_true_r, N.eqb_eq. split.
    + intros ->. by exists s'.
    + by intros [? [= -> _]].
Qed.

Lemma str_in_single (c : N) (s : str) : str_in [c] s = true ↔ c ∈ s.
Proof.
  unfold str_in. induction s as [|b s' IH].
  - simpl. split; [done | by intros ?%elem_of_nil].
  - cbn [str_find]. destruct (startswith [c] (b :: s')) eqn:E.
    + apply startswith_single in E as [? [= -> _]]. split; [intros _; left | done].
    + rewrite elem_of_cons. destruct (str_find [c] s') eqn:F; simpl.
      * split; [intros _; right; by apply IH | done].
      * split; [done |]. intros [Heq | Hin].
        -- rewrite Heq in E. simpl in E. by rewrite N.eqb_refl in E.
        -- by apply IH in Hin.
Qed.

Lemma lstrip_elem (c : N) (s : str) :
  isspace c = false → c ∈ s → c ∈ lstrip s.
Proof.
  intros Hc. induction s as [|b s' IH]; [done |].
  simpl. destruct (isspace b) eqn:E; [| done].
  intros [-> | Hin]%elem_of_cons; [congruence | by apply IH].
Qed.

Lemma strip_elem (c : N) (s : str) :
  isspace c = false → c ∈ s → c ∈ strip s.
Proof.
  intros Hc Hin. unfold strip, rstrip.
  apply elem_of_reverse, lstrip_elem; [done |].
  by apply elem_of_reverse, lstrip_elem.
Qed.

Lemma str_in_colon_strip (s : str) :
  str_in colon s = true → str_in colon (strip s) = true.
Proof.
  change colon with [58%N]. rewrite !str_in_single.
  by apply strip_elem.
Qed.

Lemma split1_occurs (sep s : str) :
  str_in sep s = true → split1 sep s = [before sep s; after sep s].
Proof.
  unfold str_in, split1, before, after.
  by destruct (str_find sep s).
Qed.

Lemma split_scan_skip (sep : str) (n : nat) (cur s : str) :
  split_scan sep n cur s = split_scan sep 0 cur (drop n s).
Proof.
  revert n. induction s as [|c s' IH]; intros [|n]; try done.
  cbn [split_scan drop]. apply IH.
Qed.

Lemma split_scan_find (sep : str) (cur s : str) :
  sep ≠ [] →
  split_scan sep 0 cur s
  = match str_find sep s with
    | None => [reverse cur ++ s]
    | Some i =>
        (reverse cur ++ take i s) :: str_split sep (drop (i + length sep) s)
    end.
Proof.
  intros Hsep. destruct sep as [|a sep']; [done |]. clear Hsep.
  revert cur. induction s as [|c s' IH]; intros cur.
  - cbn. by rewrite app_nil_r.
  - cbn [split_scan str_find].
    destruct (startswith (a :: sep') (c :: s')) eqn:Hstart.
    + rewrite split_scan_skip. cbn [length Nat.sub take drop Nat.add].
      by rewrite Nat.sub_0_r, app_nil_r.
    + rewrite IH, reverse_cons.
      destruct (str_find (a :: sep') s') as [i |]; simpl;
        by rewrite <- app_assoc.
Qed.

(** [str_split] is Python's [split]: without an occurrence of the separator
    the string is the only piece; otherwise the first piece ends at the
    first occurrence and the rest is split in the same way. *)
Lemma str_split_find (sep s : str) :
  sep ≠ [] →
  str_split sep s
  = match str_find sep s with
    | None => [s]
    | Some i => take i s :: str_split sep (drop (i + length sep) s)
    end.
Proof. intros Hsep. unfold str_split at 1. by rewrite split_scan_find. Qed.

Example strip_both_ends : strip (py "  Ada L. ") = py "Ada L.".
Proof. reflexivity. Qed.

Example strip_carriage_return : strip (py "120" ++ [13%N]) = py "120".
Proof. reflexivity. Qed.

Example split1_first_colon :
  split1 colon (py "Bio: a: b") = [py "Bio"; py " a: b"].
Proof. reflexivity. Qed.

Example str_split_adjacent :
  str_split pipe (py "a |  | b") = [py "a"; []; py "b"].
Proof. reflexivity. Qed.

Example str_split_no_overlap :
  str_split pipe (py "a | | b") = [py "a"; py "| b"].
Proof. reflexivity. Qed.

Example str_split_lines :
  str_split newline (py "a" ++ newline ++ newline ++ py "b" ++ newline)
  = [py "a"; []; py "b"; []].
Proof. reflexivity. Qed.

(** ** The parser assigns the entries of the lines, in order *)

Lemma parse_part_entry (key : str) (data : dict) (part : str) :
  parse_part key data part = mret (assign data (part_entry key part)).
Proof.
  unfold parse_part, part_entry.
  destruct (str_in colon part) eqn:E; [| done].
  by rewrite (split1_occurs _ _ (str_in_colon_strip _ E)).
Qed.

Lemma for_data_entries {A} (body : dict → A → io dict)
    (entries : A → list (str * str)) (xs : list A) (data : dict) :
  (∀ d x, body d x = mret (foldl assign d (entries x))) →
  for_data body data xs = mret (foldl assign data (xs ≫= entries)).
Proof.
  intros Hbody. revert data.
  induction xs as [|x xs IH]; intros data; [done |].
  cbn [for_data]. rewrite Hbody, io_ret_bind, IH.
  by rewrite bind_cons, foldl_app.
Qed.

Lemma parse_line_entries (data : dict) (line : str) :
  parse_line data line = mret (foldl assign data (line_entries line)).
Proof.
  unfold parse_line, line_entries.
  destruct (str_in colon line) eqn:E; [| done].
  rewrite (split1_occurs _ _ E). cbn [unpack2]. rewrite io_ret_bind.
  fold (line_key line) (line_value line).
  destruct (str_in pipe (line_value line)); [| done].
  rewrite (for_data_entries _ (λ part, [part_entry (line_key line) part])).
  - reflexivity.
  - intros d x. apply parse_part_entry.
Qed.

Lemma parse_stdout_entries (out : str) :
  parse_stdout out
  = mret (foldl assign ∅ (str_split newline out ≫= line_entries)).
Proof. apply for_data_entries, parse_line_entries. Qed.

(** The last assignment to a key wins. *)
Lemma foldl_assign_other (es : list (str * str)) (data : dict) (k : str) :
  k ∉ es.*1 → foldl assign data es !! k = data !! k.
Proof.
  revert data. induction es as [|[k' v'] es IH]; intros data Hk; [done |].
  rewrite fmap_cons, not_elem_of_cons in Hk. destruct Hk as [Hne Hk].
  simpl. rewrite IH by done. unfold assign. simpl.
  by rewrite lookup_insert_ne.
Qed.

Lemma foldl_assign_last (es1 es2 : list (str * str)) (data : dict)
    (k v : str) :
  k ∉ es2.*1 → foldl assign data (es1 ++ (k, v) :: es2) !! k = Some v.
Proof.
  intros Hk. rewrite foldl_app. simpl.
  rewrite foldl_assign_other by done.
  unfold assign. simpl. by rewrite lookup_insert_eq.
Qed.

(** Membership in a list that computes to a literal: one case per element. *)
Ltac each_elem H :=
  vm_compute in H;
  repeat (let E := fresh "E" in
          apply elem_of_cons in H as [E | H];
          [try discriminate E; try subst |]);
  try (by apply elem_of_nil in H).

Lemma entries_of_lines_other (ls : list str) (k : str) :
  (∀ l, l ∈ ls → k ∉ (line_entries l).*1) → k ∉ (ls ≫= line_entries).*1.
Proof.
  intros Hls [[k' v] [-> [l [Hin Hl]]%list_elem_of_bind]]%list_elem_of_fmap.
  apply (Hls l Hl), list_elem_of_fmap. by exists (k', v).
Qed.

(** ** C3: a line [key: value] and the entry it leaves *)

(** C3, as stated, fails: the line [Biography: Hi | Love travel] holds a
    colon, its trimmed key is [Biography] and its trimmed value is
    [Hi | Love travel], but the mapping holds [Love travel] under that key. *)
Lemma parse_stdout_line_kept_counterexample :
  ¬ (∀ line : str,
       line ∈ str_split newline (py "Biography: Hi | Love travel") →
       str_in colon line = true →
       ∃ d : dict,
         parse_stdout (py "Biography: Hi | Love travel") = ([], Ok d)
         ∧ d !! line_key line = Some (line_value line)).
Proof.
  intros H.
  destruct (H (py "Biography: Hi | Love travel")) as [d [Hd Hk]].
  - vm_compute. left.
  - reflexivity.
  - vm_compute in Hd. injection Hd as <-. vm_compute in Hk. discriminate.
Qed.

(** C3 (amended): for every line of the output that holds a colon, whose
    trimmed value does not contain [" | "] and whose key no later line
    assigns again, the mapping holds the trimmed key with the trimmed value. *)
Theorem parse_stdout_line_kept (out : str) (pre post : list str) (line : str) :
  str_split newline out = pre ++ line :: post →
  str_in colon line = true →
  str_in pipe (line_value line) = false →
  (∀ later, later ∈ post → line_key line ∉ (line_entries later).*1) →
  ∃ d : dict,
    parse_stdout out = ([], Ok d)
    ∧ d !! line_key line = Some (line_value line).
Proof.
  intros Hsplit Hcolon Hpipe Hlater.
  eexists. split; [apply parse_stdout_entries |].
  rewrite Hsplit, bind_app, bind_cons.
  unfold line_entries at 2. rewrite Hcolon, Hpipe. simpl.
  apply foldl_assign_last, entries_of_lines_other, Hlater.
Qed.

Lemma parse_stdout_line_kept_witness :
  ∃ d : dict,
    parse_stdout (py "Follower: 120" ++ newline ++ py "Full Name:  Ada L. "
                  ++ newline ++ py "Verified: False") = ([], Ok d)
    ∧ d !! py "Full Name" = Some (py "Ada L.").
Proof.
  apply (parse_stdout_line_kept _ [py "Follower: 120"]
           [py "Verified: False"] (py "Full Name:  Ada L. "));
    [reflexivity | reflexivity | reflexivity |].
  intros later Hin. each_elem Hin.
  vm_compute. intros Hk. each_elem Hk.
Defined.

(** ** C4: a value that holds [" | "] *)

(** C4: when the trimmed value of a line holds [" | "], the line assigns one
    entry per piece of the split value, in order, later assignments
    overwriting earlier ones: a piece with a colon assigns its own trimmed
    key and value, a piece without one assigns its trimmed text to the key of
    the line. *)
Theorem parse_line_piped (data : dict) (line : str) :
  str_in colon line = true →
  str_in pipe (line_value line) = true →
  parse_line data line
  = ([], Ok (foldl assign data
               (part_entry (line_key line) <$> str_split pipe (line_value line))))
  ∧ (∀ part, str_in colon part = true →
       parse_part (line_key line) data part
       = ([], Ok (<[line_key (strip part) := line_value (strip part)]> data)))
  ∧ (∀ part, str_in colon part = false →
       parse_part (line_key line) data part
       = ([], Ok (<[line_key line := strip part]> data)))
  ∧ (∀ before_it part after_it,
       str_split pipe (line_value line) = before_it ++ part :: after_it →
       (∀ later, later ∈ after_it →
          (part_entry (line_key line) later).1
          ≠ (part_entry (line_key line) part).1) →
       ∃ d : dict,
         parse_line data line = ([], Ok d)
         ∧ d !! (part_entry (line_key line) part).1
           = Some (part_entry (line_key line) part).2).
Proof.
  intros Hcolon Hpipe.
  assert (parse_line data line
          = ([], Ok (foldl assign data
               (part_entry (line_key line)
                  <$> str_split pipe (line_value line))))) as Hline.
  { rewrite parse_line_entries. unfold line_entries.
    by rewrite Hcolon, Hpipe. }
  split; [exact Hline |]. split; [| split].
  - intros part Hpart. rewrite parse_part_entry.
    unfold part_entry. by rewrite Hpart.
  - intros part Hpart. rewrite parse_part_entry.
    unfold part_entry. by rewrite Hpart.
  - intros before_it part after_it Hparts Hlater.
    eexists. split; [exact Hline |].
    rewrite Hparts, fmap_app, fmap_cons.
    destruct (part_entry (line_key line) part) as [k v] eqn:Hentry.
    apply foldl_assign_last. simpl in Hlater.
    intros [[k' v'] [-> [later [Hl Hin]]%list_elem_of_fmap]]%list_elem_of_fmap.
    apply (Hlater later Hin). by rewrite <- Hl.
Qed.

Lemma parse_line_piped_witness :
  ∃ d : dict,
    parse_line ∅ (py "Biography: Hi | Love travel") = ([], Ok d)
    ∧ d !! py "Biography" = Some (py "Love travel").
Proof.
  destruct (parse_line_piped ∅ (py "Biography: Hi | Love travel")
              eq_refl eq_refl) as (_ & _ & _ & Hlast).
  apply (Hlast [py "Hi"] (py "Love travel") []); [reflexivity |].
  intros later Hin. each_elem Hin.
Defined.

(** The example of the specification, on the whole output. *)
Example parse_stdout_biography :
  parse_stdout (py "Biography: Hi | Love travel")
  = ([], Ok {[ py "Biography" := py "Love travel" ]}).
Proof. vm_compute. reflexivity. Qed.

(** ** C10: the key of a line whose pieces all hold a colon *)

Lemma part_entries_other (key : str) (parts : list str) :
  (∀ part, part ∈ parts → str_in colon part = true) →
  (∀ part, part ∈ parts → line_key (strip part) ≠ key) →
  key ∉ (part_entry key <$> parts).*1.
Proof.
  intros Hcolon Hsub
    [[k v] [-> [part [Hp Hin]]%list_elem_of_fmap]]%list_elem_of_fmap.
  unfold part_entry in Hp. rewrite (Hcolon part Hin) in Hp.
  injection Hp as -> _. by apply (Hsub part Hin).
Qed.

(** A line whose pieces all hold a colon leaves what the mapping held under
    its own key as it was. *)
Lemma parse_line_outer_key_kept (data : dict) (line : str) :
  str_in colon line = true →
  str_in pipe (line_value line) = true →
  (∀ part, part ∈ str_split pipe (line_value line) →
     str_in colon part = true) →
  (∀ part, part ∈ str_split pipe (line_value line) →
     line_key (strip part) ≠ line_key line) →
  ∃ d : dict,
    parse_line data line = ([], Ok d)
    ∧ d !! line_key line = data !! line_key line.
Proof.
  intros Hcolon Hpipe Hparts Hsub.
  eexists. split; [apply parse_line_entries |].
  unfold line_entries. rewrite Hcolon, Hpipe.
  by apply foldl_assign_other, part_entries_other.
Qed.

(** C10, as stated, fails: in the output [A: x] followed by
    [A: B: y | C: z] the second line has the key [A], both pieces of its
    value hold a colon and neither sub-key is [A], yet the mapping holds
    [A], assigned by the first line. *)
Lemma parse_stdout_outer_key_absent_counterexample :
  ¬ (∀ line : str,
       line ∈ str_split newline (py "A: x" ++ newline ++ py "A: B: y | C: z") →
       str_in colon line = true →
       str_in pipe (line_value line) = true →
       (∀ part, part ∈ str_split pipe (line_value line) →
          str_in colon part = true) →
       (∀ part, part ∈ str_split pipe (line_value line) →
          line_key (strip part) ≠ line_key line) →
       ∃ d : dict,
         parse_stdout (py "A: x" ++ newline ++ py "A: B: y | C: z")
         = ([], Ok d)
         ∧ d !! line_key line = None).
Proof.
  intros H.
  destruct (H (py "A: B: y | C: z")) as [d [Hd Hk]].
  - vm_compute. right. left.
  - reflexivity.
  - reflexivity.
  - intros part Hin. each_elem Hin; reflexivity.
  - intros part Hin. each_elem Hin; by vm_compute.
  - vm_compute in Hd. injection Hd as <-. vm_compute in Hk. discriminate.
Qed.

(** C10 (amended): when the trimmed value of a line holds [" | "], every
    piece of it holds a colon, no sub-key equals the key of the line and no
    other line of the output assigns that key, the key of the line is absent
    from the mapping. *)
Theorem parse_stdout_outer_key_absent (out : str) (pre post : list str)
    (line : str) :
  str_split newline out = pre ++ line :: post →
  str_in colon line = true →
  str_in pipe (line_value line) = true →
  (∀ part, part ∈ str_split pipe (line_value line) →
     str_in colon part = true) →
  (∀ part, part ∈ str_split pipe (line_value line) →
     line_key (strip part) ≠ line_key line) →
  (∀ other, other ∈ pre ++ post →
     line_key line ∉ (line_entries other).*1) →
  ∃ d : dict,
    parse_stdout out = ([], Ok d) ∧ d !! line_key line = None.
Proof.
  intros Hsplit Hcolon Hpipe Hparts Hsub Hother.
  eexists. split; [apply parse_stdout_entries |].
  rewrite foldl_assign_other; [apply lookup_empty |].
  rewrite Hsplit, bind_app, bind_cons, !fmap_app, !not_elem_of_app.
  split; [| split].
  - apply entries_of_lines_other. intros l Hl.
    apply Hother, elem_of_app. by left.
  - unfold line_entries. rewrite Hcolon, Hpipe.
    by apply part_entries_other.
  - apply entries_of_lines_other. intros l Hl.
    apply Hother, elem_of_app. by right.
Qed.

Lemma parse_stdout_outer_key_absent_witness :
  ∃ d : dict,
    parse_stdout (py "Follower: 3" ++ newline ++ py "A: B: y | C: z")
    = ([], Ok d)
    ∧ d !! py "A" = None.
Proof.
  apply (parse_stdout_outer_key_absent _ [py "Follower: 3"] []
           (py "A: B: y | C: z"));
    [reflexivity | reflexivity | reflexivity | | |].
  - intros part Hin. each_elem Hin; reflexivity.
  - intros part Hin. each_elem Hin; by vm_compute.
  - intros other Hin. each_elem Hin.
    vm_compute. intros Hk. each_elem Hk.
Defined.

(** ** The row loop *)

(** Runs the binds of a computation whose pieces are known. *)
Ltac io_norm :=
  repeat (progress (unfold print, sleep, emit, call, raise, trace, outcome;
                    cbn [mbind io_bind mret io_ret try_except fst snd]));
  repeat (progress (rewrite ?app_nil_r, <- ?app_assoc; cbn [app])).

Lemma batch_pause_ok (idx : nat) :
  batch_pause idx = (trace (batch_pause idx), Ok tt).
Proof. unfold batch_pause. by destruct (_ && _). Qed.

Lemma get_instagram_data_cases (run : list str → result completed)
    (username session_id : str) :
  get_instagram_data run username session_id
  = match username with
    | [] => ([Print SkippingEmptyUsername], Ok None)
    | _ =>
        let args := toutatis_args username session_id in
        match run args with
        | Raise e =>
            ([Print (FetchingData username); SubprocessRun args;
              Print (ExceptionProcessing username e)], Ok None)
        | Ok c =>
            if bool_decide (returncode c ≠ 0%Z) then
              ([Print (FetchingData username); SubprocessRun args;
                Print (ErrorFetching username (stderr c))], Ok None)
            else
              ([Print (FetchingData username); SubprocessRun args],
               Ok (Some (foldl assign ∅
                           (str_split newline (stdout c) ≫= line_entries))))
        end
    end.
Proof.
  unfold get_instagram_data. destruct username as [|a u]; [done |].
  cbn zeta. destruct (run _) as [c | e]; [| done].
  unfold call, print, emit. cbn [mbind io_bind try_except].
  destruct (bool_decide _); [done |].
  by rewrite parse_stdout_entries.
Qed.

(** One turn of the loop, case by case. *)
Lemma process_row_cases (env : environment) (sid sess : str) (force : bool)
    (idx : nat) (r : row) :
  process_row env sid sess force idx r
  = match r !! 0 with
    | None =>
        (trace (batch_pause idx) ++ [Print (ErrorProcessingRow idx IndexError)],
         Ok tt)
    | Some cell =>
        if has_data r && negb force then
          (trace (batch_pause idx) ++ [Print (SkippingProcessed (strip cell))],
           Ok tt)
        else
          let fetch :=
            get_instagram_data (subprocess_run env idx) (strip cell) sess in
          let head :=
            trace (batch_pause idx)
            ++ [Print (WaitingBeforeRequest RATE_LIMIT_DELAY);
                Sleep RATE_LIMIT_DELAY]
            ++ trace fetch in
          match outcome fetch with
          | Ok (Some data) =>
              if bool_decide (data ≠ ∅) then
                let write := SheetUpdate sid (range_name idx) [row_values data] in
                match values_update env sid (range_name idx) [row_values data]
                with
                | Ok _ =>
                    (head ++ [write; Print (UpdatedData (strip cell)); Sleep 2],
                     Ok tt)
                | Raise e =>
                    (head ++ [write; Print (ErrorProcessingRow idx e)], Ok tt)
                end
              else (head, Ok tt)
          | Ok None => (head, Ok tt)
          | Raise e => (head ++ [Print (ErrorProcessingRow idx e)], Ok tt)
          end
    end.
Proof.
  unfold process_row, row_body, getitem.
  rewrite batch_pause_ok. generalize (trace (batch_pause idx)) as t0. intros t0.
  destruct (r !! 0) as [cell |]; [| by io_norm].
  rewrite io_bind_ok, io_ret_bind.
  destruct (has_data r && negb force).
  { by io_norm. }
  cbn zeta.
  destruct (get_instagram_data _ _ _) as [t [[data |] | e]].
  3: { by io_norm. }
  2: { by io_norm. }
  io_norm. destruct (bool_decide _).
  2: { by io_norm. }
  destruct (values_update _ _ _ _) as [[] | e]; by io_norm.
Qed.

Lemma batch_pause_quiet (idx : nat) (e : event) :
  e ∈ trace (batch_pause idx) → is_fetch e = false ∧ is_update e = false.
Proof.
  unfold batch_pause. destruct (_ && _); io_norm.
  - intros [-> | [-> | []%elem_of_nil]%elem_of_cons]%elem_of_cons; done.
  - by intros ?%elem_of_nil.
Qed.

Lemma get_instagram_data_ok (run : list str → result completed)
    (username session_id : str) :
  ∃ d, outcome (get_instagram_data run username session_id) = Ok d.
Proof.
  rewrite get_instagram_data_cases.
  destruct username; [by eexists |]. cbn zeta.
  destruct (run _) as [c | e]; [| by eexists].
  destruct (bool_decide _); by eexists.
Qed.

Lemma get_instagram_data_no_update (run : list str → result completed)
    (username session_id : str) (e : event) :
  e ∈ trace (get_instagram_data run username session_id) →
  is_update e = false.
Proof.
  rewrite get_instagram_data_cases.
  destruct username; [| cbn zeta; destruct (run _) as [c | ?];
                        [destruct (bool_decide _) |]];
    cbn [trace fst]; intros Hin;
    repeat (apply elem_of_cons in Hin as [-> | Hin]; [done |]);
    by apply elem_of_nil in Hin.
Qed.

(** A turn of the loop never raises: its handler catches every exception. *)
Lemma process_row_ok (env : environment) (sid sess : str) (force : bool)
    (idx : nat) (r : row) :
  outcome (process_row env sid sess force idx r) = Ok tt.
Proof.
  rewrite process_row_cases.
  destruct (r !! 0); [| done].
  destruct (has_data r && negb force); [done |]. cbn zeta.
  destruct (outcome (get_instagram_data _ _ _)) as [[data |] | e];
    [| done | done].
  destruct (bool_decide _); [| done].
  by destruct (values_update _ _ _ _).
Qed.

(** After a turn the loop goes on with the next row. *)
Lemma for_rows_cons (env : environment) (sid sess : str) (force : bool)
    (idx : nat) (r : row) (rest : list row) :
  for_rows (process_row env sid sess force) idx (r :: rest)
  = (trace (process_row env sid sess force idx r)
     ++ trace (for_rows (process_row env sid sess force) (S idx) rest),
     outcome (for_rows (process_row env sid sess force) (S idx) rest)).
Proof.
  cbn [for_rows].
  pose proof (process_row_ok env sid sess force idx r) as Hok.
  destruct (process_row env sid sess force idx r) as [t o].
  cbn [outcome snd] in Hok. subst o. by rewrite io_bind_ok.
Qed.

Lemma for_rows_ok (env : environment) (sid sess : str) (force : bool)
    (idx : nat) (rows : list row) :
  outcome (for_rows (process_row env sid sess force) idx rows) = Ok tt.
Proof.
  revert idx. induction rows as [|r rest IH]; intros idx; [done |].
  rewrite for_rows_cons. apply IH.
Qed.

Lemma has_data_spec (r : row) :
  has_data r = true ↔ ∃ i cell, 5 ≤ i ∧ r !! i = Some cell ∧ cell ≠ [].
Proof.
  unfold has_data. rewrite andb_true_iff, Nat.ltb_lt, existsb_exists. split.
  - intros [_ [cell [[j Hj]%list_elem_of_In%list_elem_of_lookup Hcell]]].
    rewrite lookup_drop in Hj. exists (5 + j), cell.
    split; [lia |]. split; [done |]. by destruct cell.
  - intros (i & cell & Hi & Hcell & Hne). split.
    + apply lookup_lt_Some in Hcell. lia.
    + exists cell. split; [| by destruct cell].
      apply list_elem_of_In, list_elem_of_lookup. exists (i - 5).
      rewrite lookup_drop. by replace (5 + (i - 5)) with i by lia.
Qed.

Lemma has_data_take_5 (r : row) : has_data (take 5 r) = false.
Proof.
  unfold has_data. rewrite length_take.
  apply andb_false_iff. left. apply Nat.ltb_ge. lia.
Qed.

(** ** C6: rows that already hold enrichment *)

(** C6: a row with a non-empty cell at position 5 or later is skipped when
    the force flag is off: its turn starts no lookup and writes nothing.
    With the flag on, its turn is the turn of the same row without those
    cells. *)
Theorem enriched_row_skipped (env : environment) (sid sess : str)
    (idx : nat) (r : row) (i : nat) (cell : str) :
  5 ≤ i → r !! i = Some cell → cell ≠ [] →
  outcome (process_row env sid sess false idx r) = Ok tt
  ∧ (∀ e, e ∈ trace (process_row env sid sess false idx r) →
       is_fetch e = false ∧ is_update e = false)
  ∧ (∀ force, process_row env sid sess true idx r
              = process_row env sid sess force idx (take 5 r)).
Proof.
  intros Hi Hcell Hne.
  assert (has_data r = true) as Hdata by (apply has_data_spec; eauto).
  split; [apply process_row_ok |]. split.
  - intros e. rewrite process_row_cases.
    destruct (r !! 0) as [c |]; rewrite ?Hdata; cbn [andb negb trace fst];
      (intros [Hin | Hin]%elem_of_app; [by apply (batch_pause_quiet idx) |]);
      apply elem_of_cons in Hin as [-> | []%elem_of_nil]; done.
  - intros force. rewrite !process_row_cases.
    rewrite lookup_take_lt by lia.
    by rewrite Hdata, has_data_take_5.
Qed.

(** Splits the membership of an update in the trace of a turn, piece by
    piece; only the event of the write itself remains. *)
Ltac trace_cases :=
  repeat match goal with
    | H : _ ∈ _ ++ _ |- _ => apply elem_of_app in H as [H | H]
    | H : _ ∈ _ :: _ |- _ => apply elem_of_cons in H as [H | H]
    | H : _ ∈ [] |- _ => by apply elem_of_nil in H
    | H : _ ∈ trace (batch_pause _) |- _ =>
        apply batch_pause_quiet in H as [_ H]; discriminate H
    | H : _ ∈ trace (get_instagram_data _ _ _) |- _ =>
        apply get_instagram_data_no_update in H; discriminate H
    | H : SheetUpdate _ _ _ = _ |- _ =>
        first [discriminate H | injection H as -> -> ->]
    end.

(** The only write of a turn: the row of the fetched record, when the fetch
    gave a non-empty mapping. *)
Lemma process_row_update_inv (env : environment) (sid sess : str)
    (force : bool) (idx : nat) (r : row) (s rg : str)
    (vals : list (list str)) :
  SheetUpdate s rg vals ∈ trace (process_row env sid sess force idx r) →
  ∃ (cell : str) (data : dict),
    r !! 0 = Some cell
    ∧ has_data r && negb force = false
    ∧ outcome (get_instagram_data (subprocess_run env idx) (strip cell) sess)
      = Ok (Some data)
    ∧ data ≠ ∅
    ∧ s = sid ∧ rg = range_name idx ∧ vals = [row_values data].
Proof.
  rewrite process_row_cases. intros Hin.
  destruct (r !! 0) as [cell |]; [exists cell |];
    [| cbn [trace fst] in Hin; trace_cases].
  destruct (has_data r && negb force) eqn:Hskip;
    [cbn [trace fst] in Hin; trace_cases |].
  cbn zeta in Hin.
  destruct (outcome (get_instagram_data _ _ _)) as [[data |] | e] eqn:Hfetch;
    [exists data | |]; [| cbn [trace fst] in Hin; trace_cases ..].
  destruct (bool_decide (data ≠ ∅)) eqn:Hdata;
    [| cbn [trace fst] in Hin; trace_cases].
  apply bool_decide_eq_true in Hdata.
  destruct (values_update _ _ _ _); cbn [trace fst] in Hin; trace_cases;
    by repeat split.
Qed.

(** ** C9: a fetch without data writes nothing *)

(** A lookup that succeeds and prints no line with a colon gives the empty
    mapping. *)
Lemma get_instagram_data_no_colon (run : list str → result completed)
    (username session_id : str) (c : completed) :
  username ≠ [] →
  run (toutatis_args username session_id) = Ok c →
  returncode c = 0%Z →
  (∀ line, line ∈ str_split newline (stdout c) → str_in colon line = false) →
  outcome (get_instagram_data run username session_id) = Ok (Some ∅).
Proof.
  intros Hname Hrun Hcode Hlines. rewrite get_instagram_data_cases.
  destruct username; [done |]. cbn zeta. rewrite Hrun, Hcode.
  destruct (bool_decide (0%Z ≠ 0%Z)) eqn:Hzero;
    [by apply bool_decide_eq_true in Hzero |].
  cbn [outcome snd]. do 2 f_equal.
  induction (str_split newline (stdout c)) as [|l ls IH]; [done |].
  rewrite bind_cons. unfold line_entries at 1.
  rewrite (Hlines l) by left. apply IH.
  intros line Hin. apply Hlines. by right.
Qed.

(** C9: when the fetch of a row gives [None] or the empty mapping, the turn
    of that row issues no update call. *)
Theorem no_data_no_update (env : environment) (sid sess : str)
    (force : bool) (idx : nat) (r : row) :
  (∀ cell, r !! 0 = Some cell →
     outcome (get_instagram_data (subprocess_run env idx) (strip cell) sess)
     = Ok None
     ∨ outcome (get_instagram_data (subprocess_run env idx) (strip cell) sess)
       = Ok (Some ∅)) →
  ∀ e, e ∈ trace (process_row env sid sess force idx r) →
       is_update e = false.
Proof.
  intros Hfetch e Hin. destruct e as [| | | | s rg vals]; try done.
  apply process_row_update_inv in Hin
    as (cell & data & Hcell & _ & Hdata & Hne & _).
  destruct (Hfetch cell Hcell) as [H | H]; rewrite H in Hdata; congruence.
Qed.

Lemma no_data_no_update_witness :
  outcome (get_instagram_data (subprocess_run env_no_colon 2)
             (strip (py "ada")) (py "session")) = Ok (Some ∅)
  ∧ Forall (λ e, is_update e = false)
      (trace (process_row env_no_colon (py "sheet") (py "session") false 2
                [py "ada"])).
Proof.
  split; [vm_compute; reflexivity |].
  apply Forall_forall, no_data_no_update.
  intros cell [= <-]. right. vm_compute. reflexivity.
Defined.

Lemma enriched_row_skipped_witness :
  outcome (process_row env_enriched
             (py "sheet") (py "session") false 2 enriched_row) = Ok tt
  ∧ (∀ e, e ∈ trace (process_row
                       env_enriched
                       (py "sheet") (py "session") false 2 enriched_row) →
       is_fetch e = false ∧ is_update e = false)
  ∧ (∀ force,
       process_row env_enriched
         (py "sheet") (py "session") true 2 enriched_row
       = process_row env_enriched
           (py "sheet") (py "session") force 2 (take 5 enriched_row)).
Proof.
  apply (enriched_row_skipped _ _ _ _ _ 5 (py "120"));
    [lia | reflexivity | discriminate].
Defined.

(** ** C8: a lookup that fails *)

(** C8: when the lookup of a row exits with a non-zero code or raises, the
    fetch returns [None] after printing the failure, the turn of the row
    ends without an exception and without a write, and the loop goes on
    with the rows that follow. *)
Theorem lookup_failure_is_soft (env : environment) (sid sess : str)
    (force : bool) (idx : nat) (r : row) (rest : list row) (cell : str) :
  r !! 0 = Some cell →
  strip cell ≠ [] →
  ((∃ e, subprocess_run env idx (toutatis_args (strip cell) sess) = Raise e)
   ∨ (∃ c, subprocess_run env idx (toutatis_args (strip cell) sess) = Ok c
           ∧ returncode c ≠ 0%Z)) →
  (∃ m, get_instagram_data (subprocess_run env idx) (strip cell) sess
        = ([Print (FetchingData (strip cell));
            SubprocessRun (toutatis_args (strip cell) sess);
            Print m], Ok None))
  ∧ outcome (process_row env sid sess force idx r) = Ok tt
  ∧ (∀ e, e ∈ trace (process_row env sid sess force idx r) →
       is_update e = false)
  ∧ for_rows (process_row env sid sess force) idx (r :: rest)
    = (trace (process_row env sid sess force idx r)
       ++ trace (for_rows (process_row env sid sess force) (S idx) rest),
       Ok tt).
Proof.
  intros Hcell Hname Hfail.
  assert (∃ m, get_instagram_data (subprocess_run env idx) (strip cell) sess
               = ([Print (FetchingData (strip cell));
                   SubprocessRun (toutatis_args (strip cell) sess);
                   Print m], Ok None)) as [m Hfetch].
  { rewrite get_instagram_data_cases.
    destruct (strip cell) as [|a u] eqn:Hu; [done |]. cbn zeta.
    destruct Hfail as [[e ->] | [c [-> Hc]]]; [by eexists |].
    rewrite bool_decide_eq_true_2 by done. by eexists. }
  split; [by exists m |]. split; [apply process_row_ok |]. split.
  - intros e Hin. destruct e as [| | | | s rg vals]; try done.
    apply process_row_update_inv in Hin
      as (cell' & data & Hcell' & _ & Hdata & _).
    rewrite Hcell in Hcell'. injection Hcell' as <-.
    by rewrite Hfetch in Hdata.
  - rewrite for_rows_cons. by rewrite for_rows_ok.
Qed.

Lemma lookup_failure_is_soft_witness :
  (∃ m, get_instagram_data
          (subprocess_run
             env_lookup_fails 2)
          (strip (py "ada")) (py "session")
        = ([Print (FetchingData (strip (py "ada")));
            SubprocessRun (toutatis_args (strip (py "ada")) (py "session"));
            Print m], Ok None))
  ∧ outcome (process_row
               env_lookup_fails
               (py "sheet") (py "session") false 2 [py "ada"]) = Ok tt
  ∧ (∀ e, e ∈ trace (process_row
                       env_lookup_fails
                       (py "sheet") (py "session") false 2 [py "ada"]) →
       is_update e = false)
  ∧ for_rows (process_row
                env_lookup_fails
                (py "sheet") (py "session") false) 2 [[py "ada"]; [py "bob"]]
    = (trace (process_row
                env_lookup_fails
                (py "sheet") (py "session") false 2 [py "ada"])
       ++ trace (for_rows (process_row
                   env_lookup_fails
                   (py "sheet") (py "session") false) 3 [[py "bob"]]),
       Ok tt).
Proof.
  apply (lookup_failure_is_soft _ _ _ _ _ _ _ (py "ada"));
    [reflexivity | vm_compute; discriminate |].
  right. eexists. split; [reflexivity | discriminate].
Defined.

(** ** C2: a write that raises *)

(** C2, as stated, fails: with two usernames in the sheet and a write that
    raises, the exception of row 2 is printed and row 3 is processed all the
    same: its lookup is started and its write attempted. *)
Lemma write_exception_aborts_counterexample :
  values_update env_write_fails (py "sheet") (range_name 2)
    [row_values {[ py "Follower" := py "1" ]}]
  = Raise (ExternalError (py "quota"))
  ∧ update_sheet env_write_fails (py "sheet") (py "session") false false
    = ([SheetGet (py "sheet") (py "B2:M100");
        Print (WaitingBeforeRequest 30); Sleep 30;
        Print (FetchingData (py "ada"));
        SubprocessRun [py "toutatis"; py "-u"; py "ada"; py "-s"; py "session"];
        SheetUpdate (py "sheet") (py "G2:S2")
          [[py "1"; []; []; []; []; []; []; []; []; []; []; []; []]];
        Print (ErrorProcessingRow 2 (ExternalError (py "quota")));
        Print (WaitingBeforeRequest 30); Sleep 30;
        Print (FetchingData (py "bob"));
        SubprocessRun [py "toutatis"; py "-u"; py "bob"; py "-s"; py "session"];
        SheetUpdate (py "sheet") (py "G3:S3")
          [[py "1"; []; []; []; []; []; []; []; []; []; []; []; []]];
        Print (ErrorProcessingRow 3 (ExternalError (py "quota")))],
       Ok tt).
Proof. split; [reflexivity | vm_compute; reflexivity]. Qed.

(** C2 (amended): when the write of a row raises, the handler of the turn
    prints the exception right after the write, the turn ends without an
    exception, and the loop goes on with the rows that follow. *)
Theorem write_failure_continues (env : environment) (sid sess : str)
    (force : bool) (idx : nat) (r : row) (rest : list row) (cell : str)
    (data : dict) (e : exn) :
  r !! 0 = Some cell →
  has_data r && negb force = false →
  outcome (get_instagram_data (subprocess_run env idx) (strip cell) sess)
  = Ok (Some data) →
  data ≠ ∅ →
  values_update env sid (range_name idx) [row_values data] = Raise e →
  process_row env sid sess force idx r
  = (trace (batch_pause idx)
     ++ [Print (WaitingBeforeRequest RATE_LIMIT_DELAY); Sleep RATE_LIMIT_DELAY]
     ++ trace (get_instagram_data (subprocess_run env idx) (strip cell) sess)
     ++ [SheetUpdate sid (range_name idx) [row_values data];
         Print (ErrorProcessingRow idx e)],
     Ok tt)
  ∧ for_rows (process_row env sid sess force) idx (r :: rest)
    = (trace (process_row env sid sess force idx r)
       ++ trace (for_rows (process_row env sid sess force) (S idx) rest),
       Ok tt).
Proof.
  intros Hcell Hskip Hfetch Hdata Hwrite. split.
  - rewrite process_row_cases, Hcell, Hskip. cbn zeta.
    rewrite Hfetch, bool_decide_eq_true_2, Hwrite by done.
    by rewrite <- !app_assoc.
  - rewrite for_rows_cons. by rewrite for_rows_ok.
Qed.

Lemma write_failure_continues_witness :
  process_row env_write_fails (py "sheet") (py "session") false 2 [py "ada"]
  = (trace (batch_pause 2)
     ++ [Print (WaitingBeforeRequest RATE_LIMIT_DELAY); Sleep RATE_LIMIT_DELAY]
     ++ trace (get_instagram_data (subprocess_run env_write_fails 2)
                 (strip (py "ada")) (py "session"))
     ++ [SheetUpdate (py "sheet") (range_name 2)
           [row_values {[ py "Follower" := py "1" ]}];
         Print (ErrorProcessingRow 2 (ExternalError (py "quota")))],
     Ok tt)
  ∧ for_rows (process_row env_write_fails (py "sheet") (py "session") false)
      2 [[py "ada"]; [py "bob"]]
    = (trace (process_row env_write_fails (py "sheet") (py "session") false
                2 [py "ada"])
       ++ trace (for_rows
                   (process_row env_write_fails (py "sheet") (py "session")
                      false) 3 [[py "bob"]]),
       Ok tt).
Proof.
  apply write_failure_continues;
    [reflexivity | reflexivity | vm_compute; reflexivity | | reflexivity].
  intros Hempty.
  apply (f_equal (λ m : dict, m !! py "Follower")) in Hempty.
  vm_compute in Hempty. discriminate.
Defined.

(** ** C7: the layout of the written row *)

Lemma row_values_lookup (data : dict) (i : nat) (key : str) :
  FIELDS !! i = Some key →
  row_values data !! i = Some (dict_get data key).
Proof.
  do 13 (destruct i as [|i]; [by intros [= <-] |]). done.
Qed.

Lemma row_values_populated (data : dict) (values : list str) :
  Forall2 (λ key value, data !! key = Some value) FIELDS values →
  row_values data = values.
Proof.
  unfold FIELDS, row_values, dict_get. intros H.
  repeat match goal with
    | H : Forall2 _ (_ :: _) _ |- _ =>
        apply Forall2_cons_inv_l in H as (? & ? & -> & H & ->)
    | H : Forall2 _ [] _ |- _ => apply Forall2_nil_inv_l in H as ->
    end.
  reflexivity.
Qed.

(** C7: whatever row a turn writes is the row of the record fetched for it,
    thirteen cells in the order of [FIELDS]: the cell of a field the record
    holds is its value as it is, the cell of a field it lacks is the empty
    string; a record that holds all thirteen fields is written as exactly
    its thirteen values. *)
Theorem written_row_layout (env : environment) (sid sess : str)
    (force : bool) (idx : nat) (r : row) (s rg : str)
    (vals : list (list str)) :
  SheetUpdate s rg vals ∈ trace (process_row env sid sess force idx r) →
  ∃ (cell : str) (data : dict),
    r !! 0 = Some cell
    ∧ outcome (get_instagram_data (subprocess_run env idx) (strip cell) sess)
      = Ok (Some data)
    ∧ rg = range_name idx
    ∧ vals = [row_values data]
    ∧ length (row_values data) = 13
    ∧ (∀ i key value, FIELDS !! i = Some key → data !! key = Some value →
         row_values data !! i = Some value)
    ∧ (∀ i key, FIELDS !! i = Some key → data !! key = None →
         row_values data !! i = Some [])
    ∧ (∀ values,
         Forall2 (λ key value, data !! key = Some value) FIELDS values →
         row_values data = values).
Proof.
  intros (cell & data & Hcell & _ & Hfetch & _ & _ & -> & ->)
    %process_row_update_inv.
  exists cell, data. repeat split; try done.
  - intros i key value Hkey Hvalue.
    rewrite (row_values_lookup _ _ _ Hkey). unfold dict_get. by rewrite Hvalue.
  - intros i key Hkey Hnone.
    rewrite (row_values_lookup _ _ _ Hkey). unfold dict_get. by rewrite Hnone.
  - apply row_values_populated.
Qed.

Lemma written_row_layout_witness :
  ∃ (cell : str) (data : dict),
    [py "ada"] !! 0 = Some cell
    ∧ outcome (get_instagram_data (subprocess_run env_full 2) (strip cell)
                 (py "session"))
      = Ok (Some data)
    ∧ py "G2:S2" = range_name 2
    ∧ [[py "120"; py "85"; py "7"; py "Hi"; py "Ada L."; py "False";
        py "False"; py "True"; py "42"; py "0"; py "False"; py "False";
        py "False"]] = [row_values data]
    ∧ length (row_values data) = 13
    ∧ (∀ i key value, FIELDS !! i = Some key → data !! key = Some value →
         row_values data !! i = Some value)
    ∧ (∀ i key, FIELDS !! i = Some key → data !! key = None →
         row_values data !! i = Some [])
    ∧ (∀ values,
         Forall2 (λ key value, data !! key = Some value) FIELDS values →
         row_values data = values).
Proof.
  apply (written_row_layout env_full (py "sheet") (py "session") false 2
           [py "ada"] (py "sheet")).
  apply list_elem_of_In. vm_compute. tauto.
Defined.

(** ** C1: the range that is read and the range that is written *)

(** C1 fails on the code: the read asks for columns B to M, the write of a
    row goes to columns G to S.  One run shows both ranges. *)
Theorem read_range_stops_at_M :
  read_range = py "B2:M100"
  ∧ (∀ idx, range_name idx
            = py "G" ++ str_of_nat idx ++ py ":S" ++ str_of_nat idx)
  ∧ trace (update_sheet env_full (py "sheet") (py "session") false false)
    = [SheetGet (py "sheet") (py "B2:M100");
       Print (WaitingBeforeRequest 30); Sleep 30;
       Print (FetchingData (py "ada"));
       SubprocessRun [py "toutatis"; py "-u"; py "ada"; py "-s"; py "session"];
       SheetUpdate (py "sheet") (py "G2:S2")
         [[py "120"; py "85"; py "7"; py "Hi"; py "Ada L."; py "False";
           py "False"; py "True"; py "42"; py "0"; py "False"; py "False";
           py "False"]];
       Print (UpdatedData (py "ada")); Sleep 2].
Proof.
  split; [reflexivity |]. split; [reflexivity |]. vm_compute. reflexivity.
Qed.

(** ** C5: the batch pause counts rows *)

(** C5 fails on the code: with eleven rows that are all skipped, no lookup
    is started, and the pause of [BATCH_DELAY] seconds is taken before the
    eleventh row all the same. *)
Theorem batch_pause_counts_rows :
  trace (update_sheet env_enriched (py "sheet") (py "session") false false)
  = [SheetGet (py "sheet") (py "B2:M100")]
    ++ replicate 10 (Print (SkippingProcessed (py "ada")))
    ++ [Print (TakingBreak BATCH_DELAY); Sleep BATCH_DELAY;
        Print (SkippingProcessed (py "ada"))]
  ∧ Sleep BATCH_DELAY
    ∈ trace (update_sheet env_enriched (py "sheet") (py "session") false false)
  ∧ (∀ e, e ∈ trace (update_sheet env_enriched (py "sheet") (py "session")
                       false false) → is_fetch e = false).
Proof.
  assert (trace (update_sheet env_enriched (py "sheet") (py "session")
                   false false)
          = [SheetGet (py "sheet") (py "B2:M100")]
            ++ replicate 10 (Print (SkippingProcessed (py "ada")))
            ++ [Print (TakingBreak BATCH_DELAY); Sleep BATCH_DELAY;
                Print (SkippingProcessed (py "ada"))]) as Htrace
    by (vm_compute; reflexivity).
  split; [exact Htrace |]. rewrite Htrace. split.
  - apply list_elem_of_In. vm_compute. tauto.
  - intros e Hin. apply list_elem_of_In in Hin. vm_compute in Hin.
    repeat (destruct Hin as [<- | Hin]; [reflexivity |]). destruct Hin.
Qed.

(** Splits the membership of a lookup in the trace of a turn. *)
Ltac fetch_cases :=
  repeat match goal with
    | H : _ ∈ _ ++ _ |- _ => apply elem_of_app in H as [H | H]
    | H : _ ∈ _ :: _ |- _ => apply elem_of_cons in H as [H | H]
    | H : _ ∈ [] |- _ => by apply elem_of_nil in H
    | H : _ ∈ trace (batch_pause _) |- _ =>
        apply batch_pause_quiet in H as [H _]; discriminate H
    | H : SubprocessRun _ = _ |- _ =>
        first [discriminate H | injection H as ->]
    end.

(** The first half of C5 holds: a lookup started in a turn comes right after
    the wait of [RATE_LIMIT_DELAY] seconds (and the line that announces the
    fetch). *)
Lemma fetch_after_delay (env : environment) (sid sess : str) (force : bool)
    (idx : nat) (r : row) (args : list str) :
  SubprocessRun args ∈ trace (process_row env sid sess force idx r) →
  ∃ (username : str) (tail : list event),
    trace (process_row env sid sess force idx r)
    = trace (batch_pause idx)
      ++ [Print (WaitingBeforeRequest RATE_LIMIT_DELAY);
          Sleep RATE_LIMIT_DELAY;
          Print (FetchingData username);
          SubprocessRun args]
      ++ tail.
Proof.
  rewrite process_row_cases. intros Hin.
  destruct (r !! 0) as [cell |]; [| cbn [trace fst] in Hin; fetch_cases].
  destruct (has_data r && negb force);
    [cbn [trace fst] in Hin; fetch_cases |].
  cbn zeta in *. rewrite get_instagram_data_cases in *.
  destruct (strip cell) as [|a u].
  { cbn [trace outcome fst snd] in Hin. fetch_cases. }
  cbn zeta in *. exists (a :: u).
  destruct (subprocess_run env idx _) as [c | e].
  - destruct (bool_decide (returncode c ≠ 0%Z)).
    + cbn [trace outcome fst snd] in *. fetch_cases. by eexists.
    + cbn [trace outcome fst snd] in *.
      destruct (bool_decide _);
        [destruct (values_update _ _ _ _) |];
        cbn [trace outcome fst snd] in *; fetch_cases;
        eexists; rewrite <- ?app_assoc; reflexivity.
  - cbn [trace outcome fst snd] in *. fetch_cases. by eexists.
Qed.

(** An exception of the read at the start is printed by the outer handler
    and ends the run before any row is looked at. *)
Lemma read_failure_aborts (env : environment) (sid sess : str)
    (test force : bool) (e : exn) :
  get_google_sheets_service env = ([], Ok tt) →
  values_get env sid read_range = Raise e →
  update_sheet env sid sess test force
  = ([SheetGet sid read_range; Print (FailedToProcess e)], Ok tt).
Proof.
  intros Hservice Hread. unfold update_sheet.
  rewrite Hservice, Hread. by io_norm.
Qed.

(** * Further properties of the script *)

(** ** White space at the ends of a string *)

Lemma lstrip_no_lead (s : str) (c : N) (t : str) :
  lstrip s = c :: t → isspace c = false.
Proof.
  induction s as [|a s' IH]; [done |]. simpl.
  destruct (isspace a) eqn:Ha; [done |]. by intros [= <- _].
Qed.

Lemma lstrip_fixed (s : str) :
  match s with [] => True | c :: _ => isspace c = false end → lstrip s = s.
Proof. destruct s as [|c s']; [done |]. simpl. by intros ->. Qed.

Lemma lstrip_snoc (u : str) (c : N) :
  isspace c = false → lstrip (u ++ [c]) = lstrip u ++ [c].
Proof.
  intros Hc. induction u as [|a u' IH]; simpl.
  - by rewrite Hc.
  - by destruct (isspace a).
Qed.

Lemma rstrip_cons (c : N) (t : str) :
  isspace c = false → rstrip (c :: t) = c :: rstrip t.
Proof.
  intros Hc. unfold rstrip.
  by rewrite reverse_cons, lstrip_snoc, reverse_app.
Qed.

Lemma lstrip_idemp (s : str) : lstrip (lstrip s) = lstrip s.
Proof.
  apply lstrip_fixed. destruct (lstrip s) as [|c t] eqn:E; [done |].
  by apply lstrip_no_lead in E.
Qed.

Lemma rstrip_idemp (s : str) : rstrip (rstrip s) = rstrip s.
Proof.
  unfold rstrip. by rewrite reverse_involutive, lstrip_idemp.
Qed.

Lemma lstrip_rstrip_lstrip (s : str) :
  lstrip (rstrip (lstrip s)) = rstrip (lstrip s).
Proof.
  destruct (lstrip s) as [|c t] eqn:E; [done |].
  apply lstrip_no_lead in E.
  rewrite rstrip_cons by done. simpl. by rewrite E.
Qed.

Lemma strip_idemp (s : str) : strip (strip s) = strip s.
Proof.
  unfold strip. by rewrite lstrip_rstrip_lstrip, rstrip_idemp.
Qed.

Lemma lstrip_subseteq (s : str) (c : N) : c ∈ lstrip s → c ∈ s.
Proof.
  induction s as [|a s' IH]; [done |]. simpl.
  destruct (isspace a); [| done]. intros Hin. right. by apply IH.
Qed.

Lemma strip_subseteq (s : str) (c : N) : c ∈ strip s → c ∈ s.
Proof.
  unfold strip, rstrip. rewrite elem_of_reverse.
  intros Hin%lstrip_subseteq. rewrite elem_of_reverse in Hin.
  by apply lstrip_subseteq.
Qed.

Lemma before_single_fresh (c : N) (s : str) : c ∉ before [c] s.
Proof.
  unfold before. induction s as [|a s' IH].
  - simpl. by intros ?%elem_of_nil.
  - cbn [str_find]. destruct (startswith [c] (a :: s')) eqn:E.
    + simpl. by intros ?%elem_of_nil.
    + destruct (str_find [c] s') as [i |] eqn:F; simpl.
      * intros [-> | Hin]%elem_of_cons; [| done].
        simpl in E. by rewrite N.eqb_refl in E.
      * intros [-> | Hin]%elem_of_cons; [| done].
        simpl in E. by rewrite N.eqb_refl in E.
Qed.

Lemma line_key_trimmed (line : str) : trimmed (line_key line).
Proof. apply strip_idemp. Qed.

Lemma line_value_trimmed (line : str) : trimmed (line_value line).
Proof. apply strip_idemp. Qed.

Lemma line_key_no_colon (line : str) : str_in colon (line_key line) = false.
Proof.
  apply not_true_is_false. change colon with [58%N].
  rewrite str_in_single. intros Hin%strip_subseteq.
  by apply before_single_fresh in Hin.
Qed.

(** ** The parser on every output *)

Lemma foldl_assign_lookup_inv (es : list (str * str)) (data : dict)
    (k v : str) :
  foldl assign data es !! k = Some v → (k, v) ∈ es ∨ data !! k = Some v.
Proof.
  revert data. induction es as [|[k' v'] es IH]; intros data; [by right |].
  simpl. intros [Hin | Hdata]%IH; [left; by right |].
  unfold assign in Hdata. simpl in Hdata.
  destruct (decide (k' = k)) as [-> | Hne].
  - rewrite lookup_insert_eq in Hdata. injection Hdata as ->. left. by left.
  - rewrite lookup_insert_ne in Hdata by done. by right.
Qed.

Lemma foldl_assign_union (es : list (str * str)) (data : dict) :
  foldl assign data es = foldl assign ∅ es ∪ data.
Proof.
  revert data. induction es as [|[k v] es IH]; intros data.
  - simpl. by rewrite (left_id_L ∅ (∪)).
  - simpl. rewrite IH, (IH (assign ∅ (k, v))). unfold assign. simpl.
    rewrite <- (assoc_L (∪)). f_equal.
    by rewrite insert_union_singleton_l, insert_empty.
Qed.

Lemma foldl_assign_snoc_non_empty (es : list (str * str)) (e : str * str)
    (data : dict) :
  foldl assign data (es ++ [e]) ≠ ∅.
Proof. rewrite foldl_app. simpl. apply insert_non_empty. Qed.

Lemma foldl_assign_non_empty (es : list (str * str)) (data : dict) :
  es ≠ [] → foldl assign data es ≠ ∅.
Proof.
  destruct es as [|e es _] using rev_ind; [done |]. intros _.
  apply foldl_assign_snoc_non_empty.
Qed.

Lemma split_scan_non_empty (sep : str) (skip : nat) (cur s : str) :
  split_scan sep skip cur s ≠ [].
Proof.
  revert skip cur. induction s as [|c s' IH]; intros skip cur; [done |].
  simpl. destruct skip; [| apply IH].
  destruct (startswith sep (c :: s')); [done | apply IH].
Qed.

Lemma line_entries_colon (line : str) :
  str_in colon line = true → line_entries line ≠ [].
Proof.
  intros Hcolon. unfold line_entries. rewrite Hcolon.
  destruct (str_in pipe (line_value line)); [| done].
  pose proof (split_scan_non_empty pipe 0 [] (line_value line)) as Hparts.
  unfold str_split. by destruct (split_scan _ _ _ _).
Qed.

Lemma line_entries_shape (line k v : str) :
  (k, v) ∈ line_entries line →
  trimmed k ∧ trimmed v ∧ str_in colon k = false.
Proof.
  unfold line_entries.
  destruct (str_in colon line); [| by intros ?%elem_of_nil].
  destruct (str_in pipe (line_value line)).
  - intros [part [Hentry _]]%list_elem_of_fmap. unfold part_entry in Hentry.
    destruct (str_in colon part); injection Hentry as -> ->.
    + split; [apply line_key_trimmed |].
      split; [apply line_value_trimmed | apply line_key_no_colon].
    + split; [apply line_key_trimmed |].
      split; [apply strip_idemp | apply line_key_no_colon].
  - intros [[= -> ->] | []%elem_of_nil]%elem_of_cons.
    split; [apply line_key_trimmed |].
    split; [apply line_value_trimmed | apply line_key_no_colon].
Qed.

(** X1: the parse of an output never raises and does nothing to the outside,
    whatever the tool printed: the unpacking of the two pieces of a split
    cannot fail, because a piece that holds a colon still holds it after
    [strip]. *)
Theorem parse_stdout_never_raises (out : str) :
  ∃ d : dict, parse_stdout out = ([], Ok d).
Proof. eexists. apply parse_stdout_entries. Qed.

(** X2: every key of the parsed mapping has no white space at its ends and
    holds no colon, and every value has no white space at its ends. *)
Theorem parsed_entries_trimmed (out : str) (d : dict) (k v : str) :
  parse_stdout out = ([], Ok d) →
  d !! k = Some v →
  trimmed k ∧ trimmed v ∧ str_in colon k = false.
Proof.
  rewrite parse_stdout_entries. intros [= <-] Hk.
  apply foldl_assign_lookup_inv in Hk as [Hin | Hempty]; [| done].
  apply list_elem_of_bind in Hin as [line [Hin _]].
  by apply line_entries_shape in Hin.
Qed.

Lemma parsed_entries_trimmed_witness :
  trimmed (py "Full Name") ∧ trimmed (py "Ada L.")
  ∧ str_in colon (py "Full Name") = false.
Proof.
  apply (parsed_entries_trimmed (py "  Full Name :  Ada L.  ")
           {[ py "Full Name" := py "Ada L." ]});
    vm_compute; reflexivity.
Defined.

Lemma entries_empty_iff (lines : list str) :
  foldl assign ∅ (lines ≫= line_entries) = ∅
  ↔ ∀ line, line ∈ lines → str_in colon line = false.
Proof.
  split.
  - intros Hempty line Hin. apply not_true_is_false. intros Hcolon.
    apply line_entries_colon in Hcolon.
    apply list_elem_of_split in Hin as (pre & post & Hlines).
    rewrite Hlines, bind_app, bind_cons in Hempty.
    revert Hempty. apply foldl_assign_non_empty.
    intros [_ [Hnil _]%app_eq_nil]%app_eq_nil. done.
  - intros Hlines.
    induction lines as [|l ls IH]; [done |].
    rewrite bind_cons. unfold line_entries at 1.
    rewrite (Hlines l) by left. apply IH.
    intros line Hin. apply Hlines. by right.
Qed.

(** X3: the parsed mapping is empty exactly when no line of the output
    holds a colon. *)
Theorem parsed_empty_iff (out : str) (d : dict) :
  parse_stdout out = ([], Ok d) →
  d = ∅ ↔ ∀ line, line ∈ str_split newline out → str_in colon line = false.
Proof.
  rewrite parse_stdout_entries. intros [= <-]. apply entries_empty_iff.
Qed.

Lemma parsed_empty_iff_witness :
  (∅ : dict) = ∅
  ↔ ∀ line, line ∈ str_split newline (py "no such user" ++ newline) →
            str_in colon line = false.
Proof.
  apply (parsed_empty_iff (py "no such user" ++ newline) ∅).
  vm_compute. reflexivity.
Defined.

Lemma split_scan_single_app (c : N) (cur a b : str) :
  split_scan [c] 0 cur (a ++ c :: b)
  = split_scan [c] 0 cur a ++ split_scan [c] 0 [] b.
Proof.
  revert cur. induction a as [|x a' IH]; intros cur.
  - simpl. by rewrite N.eqb_refl.
  - cbn [app split_scan startswith]. rewrite !andb_true_r.
    destruct (c =? x)%N; cbn [length Nat.sub]; by rewrite IH.
Qed.

(** X4: the parse of one output followed by a new line and a second output
    is the mapping of the second laid over the mapping of the first: what
    the tool prints later wins, what only the first part holds stays. *)
Theorem parse_stdout_append (a b : str) :
  ∃ da db : dict,
    parse_stdout a = ([], Ok da)
    ∧ parse_stdout b = ([], Ok db)
    ∧ parse_stdout (a ++ newline ++ b) = ([], Ok (db ∪ da)).
Proof.
  eexists _, _. split; [apply parse_stdout_entries |].
  split; [apply parse_stdout_entries |].
  rewrite parse_stdout_entries. unfold str_split, newline.
  cbn [app]. rewrite split_scan_single_app, bind_app, foldl_app.
  by rewrite foldl_assign_union.
Qed.

(** ** No stored value holds the delimiter *)

(** [sep] occurs in [s]. *)
Lemma startswith_app (sep s : str) :
  startswith sep s = true ↔ ∃ r, s = sep ++ r.
Proof.
  revert s. induction sep as [|a sep' IH]; intros s.
  - simpl. split; [by exists s | done].
  - destruct s as [|b s']; simpl.
    + split; [done | by intros [? ?]].
    + rewrite andb_true_iff, N.eqb_eq, IH. split.
      * intros [-> [r ->]]. by exists r.
      * intros [r [= -> ->]]. split; [done | by exists r].
Qed.

Lemma str_find_split (sep s : str) (i : nat) :
  str_find sep s = Some i →
  s = take i s ++ sep ++ drop (i + length sep) s.
Proof.
  revert i. induction s as [|a s' IH]; intros i; cbn [str_find].
  - destruct (startswith sep []) eqn:E; [| done]. intros [= <-].
    apply startswith_app in E as [r Hr]. simpl.
    rewrite Hr at 1. f_equal.
    by rewrite Hr, drop_app_length.
  - destruct (startswith sep (a :: s')) eqn:E.
    + intros [= <-]. apply startswith_app in E as [r Hr]. simpl.
      rewrite Hr at 1. f_equal. by rewrite Hr, drop_app_length.
    + destruct (str_find sep s') as [j |] eqn:F; [| done].
      intros [= <-]. simpl. f_equal. by apply IH.
Qed.

Lemma str_find_first (sep s : str) (i : nat) (l r : str) :
  str_find sep s = Some i → s = l ++ sep ++ r → i ≤ length l.
Proof.
  revert s i. induction l as [|a l' IH]; intros s i Hfind ->.
  - cbn [app str_find] in Hfind.
    assert (startswith sep (sep ++ r) = true) as E
      by (apply startswith_app; by exists r).
    destruct (sep ++ r); cbn [str_find] in Hfind; rewrite E in Hfind;
      injection Hfind as <-; simpl; lia.
  - cbn [app str_find] in Hfind.
    destruct (startswith sep (a :: l' ++ sep ++ r)); [injection Hfind as <-;
                                                      simpl; lia |].
    destruct (str_find sep (l' ++ sep ++ r)) as [j |] eqn:F; [| done].
    injection Hfind as <-. simpl. apply le_n_S. by eapply IH.
Qed.

Lemma str_in_occurs (sep s : str) :
  str_in sep s = true ↔ ∃ l r, s = l ++ sep ++ r.
Proof.
  unfold str_in. split.
  - destruct (str_find sep s) as [i |] eqn:F; [| done]. intros _.
    eexists _, _. by apply str_find_split.
  - intros (l & r & ->). induction l as [|a l' IH].
    + assert (startswith sep (sep ++ r) = true) as E
        by (apply startswith_app; by exists r).
      simpl. destruct (sep ++ r); cbn [str_find]; by rewrite E.
    + cbn [app str_find].
      destruct (startswith sep (a :: l' ++ sep ++ r)); [done |].
      by destruct (str_find sep (l' ++ sep ++ r)).
Qed.

(** A string without [sep] has no piece with [sep]. *)
Lemma str_in_factor (sep t s l r : str) :
  s = l ++ t ++ r → str_in sep s = false → str_in sep t = false.
Proof.
  intros -> Hs. apply not_true_is_false.
  intros (l' & r' & ->)%str_in_occurs.
  assert (str_in sep (l ++ (l' ++ sep ++ r') ++ r) = true) as Hin; [| congruence].
  apply str_in_occurs. exists (l ++ l'), (r' ++ r).
  by rewrite <- !app_assoc.
Qed.

Lemma lstrip_suffix (s : str) : ∃ l, s = l ++ lstrip s.
Proof.
  induction s as [|a s' [l IH]]; [by exists [] |]. simpl.
  destruct (isspace a); [| by exists []].
  exists (a :: l). simpl. by f_equal.
Qed.

Lemma strip_factor (s : str) : ∃ l r, s = l ++ strip s ++ r.
Proof.
  destruct (lstrip_suffix s) as [l Hl].
  destruct (lstrip_suffix (reverse (lstrip s))) as [r Hr].
  exists l, (reverse r). unfold strip, rstrip.
  rewrite <- reverse_app, <- Hr, reverse_involutive. exact Hl.
Qed.

Lemma after_suffix (sep s : str) : ∃ l, s = l ++ after sep s.
Proof.
  unfold after. destruct (str_find sep s) as [i |].
  - exists (take (i + length sep) s). by rewrite take_drop.
  - exists s. by rewrite app_nil_r.
Qed.

Lemma str_in_strip (sep s : str) :
  str_in sep s = false → str_in sep (strip s) = false.
Proof.
  destruct (strip_factor s) as (l & r & Hs). by apply str_in_factor with l r.
Qed.

Lemma str_in_line_value (sep s : str) :
  str_in sep s = false → str_in sep (line_value s) = false.
Proof.
  intros Hs. apply str_in_strip.
  destruct (after_suffix colon s) as [l Hl].
  apply str_in_factor with s l []; [by rewrite app_nil_r | done].
Qed.

Lemma str_find_before_free (sep s : str) (i : nat) :
  sep ≠ [] → str_find sep s = Some i → str_in sep (take i s) = false.
Proof.
  intros Hsep Hfind. apply not_true_is_false.
  intros (l & r & Htake)%str_in_occurs.
  assert (i ≤ length l) as Hi.
  { apply (str_find_first sep s i l (r ++ drop i s)); [done |].
    rewrite <- (take_drop i s) at 1. rewrite Htake.
    by rewrite <- !app_assoc. }
  apply (f_equal length) in Htake.
  rewrite length_take, !length_app in Htake.
  destruct sep; [done |]. simpl in Htake. lia.
Qed.

Lemma str_split_free (sep s : str) :
  sep ≠ [] → Forall (λ piece, str_in sep piece = false) (str_split sep s).
Proof.
  intros Hsep. remember (length s) as n eqn:Hn. revert s Hn.
  induction n as [n IH] using lt_wf_ind. intros s ->.
  rewrite str_split_find by done.
  destruct (str_find sep s) as [i |] eqn:F.
  - constructor; [by apply str_find_before_free |].
    eapply IH; [| done]. rewrite length_drop.
    apply str_find_split, (f_equal length) in F.
    rewrite !length_app in F. destruct sep; [done |]. simpl in *. lia.
  - constructor; [| done]. unfold str_in. by rewrite F.
Qed.

(** X5: no value of the parsed mapping holds the delimiter [" | "]: a
    value that holds it is always cut into its pieces. *)
Theorem parsed_values_pipe_free (out : str) (d : dict) (k v : str) :
  parse_stdout out = ([], Ok d) →
  d !! k = Some v →
  str_in pipe v = false.
Proof.
  rewrite parse_stdout_entries. intros [= <-] Hk.
  apply foldl_assign_lookup_inv in Hk as [Hin | Hempty]; [| done].
  apply list_elem_of_bind in Hin as [line [Hin _]].
  unfold line_entries in Hin.
  destruct (str_in colon line); [| by apply elem_of_nil in Hin].
  destruct (str_in pipe (line_value line)) eqn:Hpipe.
  - apply list_elem_of_fmap in Hin as [part [Hentry Hpart]].
    assert (str_in pipe part = false) as Hfree.
    { pose proof (str_split_free pipe (line_value line)) as Hall.
      rewrite Forall_forall in Hall. by apply Hall. }
    unfold part_entry in Hentry.
    destruct (str_in colon part); injection Hentry as -> ->.
    + by apply str_in_line_value, str_in_strip.
    + by apply str_in_strip.
  - by apply elem_of_cons in Hin as [[= -> ->] | []%elem_of_nil].
Qed.

Lemma parsed_values_pipe_free_witness :
  str_in pipe (py "85") = false.
Proof.
  apply (parsed_values_pipe_free (py "Follower : 120 | Following : 85")
           {[ py "Follower" := py "120"; py "Following" := py "85" ]}
           (py "Following"));
    vm_compute; reflexivity.
Defined.

(** ** The whole run *)

Lemma get_google_sheets_service_quiet (env : environment) :
  get_google_sheets_service env
  = ([], outcome (get_google_sheets_service env)).
Proof. unfold get_google_sheets_service. by destruct (_ && _). Qed.

Lemma for_rows_trace (env : environment) (sid sess : str) (force : bool)
    (idx : nat) (rows : list row) :
  trace (for_rows (process_row env sid sess force) idx rows)
  = concat (turn_traces env sid sess force idx rows).
Proof.
  revert idx. induction rows as [|r rest IH]; intros idx; [done |].
  rewrite for_rows_cons. cbn [trace fst]. unfold turn_traces.
  rewrite imap_cons. cbn [concat]. rewrite Nat.add_0_r. f_equal.
  rewrite IH. unfold turn_traces. f_equal. apply imap_ext.
  intros i x _. simpl. by rewrite Nat.add_succ_r.
Qed.

(** The whole of [update_sheet], case by case. *)
Lemma update_sheet_cases (env : environment) (sid sess : str)
    (test force : bool) :
  update_sheet env sid sess test force
  = match outcome (get_google_sheets_service env) with
    | Raise e => ([], Raise e)
    | Ok _ =>
        match values_get env sid read_range with
        | Raise e =>
            ([SheetGet sid read_range; Print (FailedToProcess e)], Ok tt)
        | Ok [] => ([SheetGet sid read_range; Print NoUsernamesFound], Ok tt)
        | Ok (r :: rest) =>
            if test then
              ([SheetGet sid read_range; Print TestModeFirstRow]
               ++ trace (process_row env sid sess force 2 r), Ok tt)
            else
              ([SheetGet sid read_range]
               ++ concat (turn_traces env sid sess force 2 (r :: rest)),
               Ok tt)
        end
    end.
Proof.
  unfold update_sheet. rewrite get_google_sheets_service_quiet.
  destruct (outcome (get_google_sheets_service env)) as [[] | e]; [| done].
  rewrite io_bind_ok. cbn [app].
  destruct (values_get env sid read_range) as [[|r rest] | e];
    [by io_norm | | by io_norm].
  destruct test.
  - pose proof (for_rows_trace env sid sess force 2 [r]) as Htrace.
    pose proof (for_rows_ok env sid sess force 2 [r]) as Hok.
    change (take 1 (r :: rest)) with [r].
    destruct (for_rows _ 2 [r]) as [t o] eqn:Hrows.
    cbn [trace outcome fst snd turn_traces imap concat] in Htrace, Hok.
    rewrite app_nil_r in Htrace. subst t o.
    io_norm. change (take 1 (r :: rest)) with [r].
    rewrite Hrows. by io_norm.
  - pose proof (for_rows_trace env sid sess force 2 (r :: rest)) as Htrace.
    pose proof (for_rows_ok env sid sess force 2 (r :: rest)) as Hok.
    destruct (for_rows _ 2 (r :: rest)) as [t o] eqn:Hrows.
    cbn [trace outcome fst snd] in Htrace, Hok. subst t o.
    io_norm. rewrite Hrows. by io_norm.
Qed.


(** X7: when one of the three Google credentials is not in the environment,
    or is empty, [update_sheet] raises [ValueError] before it reads the
    sheet, starts a lookup or sleeps. *)
Theorem missing_credentials_raise (env : environment) (sid sess : str)
    (test force : bool) (name : str) :
  name ∈ [py "GOOGLE_CLIENT_ID"; py "GOOGLE_CLIENT_SECRET";
          py "GOOGLE_REFRESH_TOKEN"] →
  getenv env name = None ∨ getenv env name = Some [] →
  update_sheet env sid sess test force = ([], Raise ValueError).
Proof.
  intros Hname Hunset. rewrite update_sheet_cases.
  assert (env_set env name = false) as Hset
    by (unfold env_set; by destruct Hunset as [-> | ->]).
  assert (outcome (get_google_sheets_service env) = Raise ValueError) as ->;
    [| done].
  unfold get_google_sheets_service.
  repeat (apply elem_of_cons in Hname as [-> | Hname];
          [rewrite Hset, ?andb_false_r; reflexivity |]).
  by apply elem_of_nil in Hname.
Qed.

Lemma missing_credentials_raise_witness :
  update_sheet env_no_credentials (py "sheet") (py "session") false false
  = ([], Raise ValueError).
Proof.
  apply (missing_credentials_raise _ _ _ _ _ (py "GOOGLE_CLIENT_SECRET"));
    [right; left | by left].
Defined.

(** X8: an exception of the read of the sheet is printed and ends the run:
    no row is looked at, no lookup started, nothing written. *)
Theorem read_failure_ends_run (env : environment) (sid sess : str)
    (test force : bool) (e : exn) :
  outcome (get_google_sheets_service env) = Ok tt →
  values_get env sid read_range = Raise e →
  update_sheet env sid sess test force
  = ([SheetGet sid read_range; Print (FailedToProcess e)], Ok tt).
Proof.
  intros Hservice Hread. by rewrite update_sheet_cases, Hservice, Hread.
Qed.

Lemma read_failure_ends_run_witness :
  update_sheet env_read_fails (py "sheet") (py "session") false true
  = ([SheetGet (py "sheet") read_range;
      Print (FailedToProcess (ExternalError (py "403")))], Ok tt).
Proof. apply read_failure_ends_run; reflexivity. Defined.

(** X9: on a sheet without rows [update_sheet] says so and stops: it does
    not sleep, start a lookup or write. *)
Theorem empty_sheet_stops (env : environment) (sid sess : str)
    (test force : bool) :
  outcome (get_google_sheets_service env) = Ok tt →
  values_get env sid read_range = Ok [] →
  update_sheet env sid sess test force
  = ([SheetGet sid read_range; Print NoUsernamesFound], Ok tt).
Proof.
  intros Hservice Hread. by rewrite update_sheet_cases, Hservice, Hread.
Qed.

Lemma empty_sheet_stops_witness :
  update_sheet env_empty_sheet (py "sheet") (py "session") true false
  = ([SheetGet (py "sheet") read_range; Print NoUsernamesFound], Ok tt).
Proof. apply empty_sheet_stops; reflexivity. Defined.

(** X10: in test mode only the first row of the sheet has a turn, as sheet
    row 2; the rows after it leave no event. *)
Theorem test_mode_first_row_only (env : environment) (sid sess : str)
    (force : bool) (r : row) (rest : list row) :
  outcome (get_google_sheets_service env) = Ok tt →
  values_get env sid read_range = Ok (r :: rest) →
  update_sheet env sid sess true force
  = ([SheetGet sid read_range; Print TestModeFirstRow]
     ++ trace (process_row env sid sess force 2 r), Ok tt).
Proof.
  intros Hservice Hread. by rewrite update_sheet_cases, Hservice, Hread.
Qed.

Lemma test_mode_first_row_only_witness :
  update_sheet env_three_rows (py "sheet") (py "session") true false
  = ([SheetGet (py "sheet") read_range; Print TestModeFirstRow]
     ++ trace (process_row env_three_rows (py "sheet") (py "session") false
                 2 [py "ada"]), Ok tt).
Proof. apply (test_mode_first_row_only _ _ _ _ _ [[]; [py "  "]]); reflexivity. Defined.

(** X11: without test mode the run is the read followed by the turns of the
    rows in the order of the sheet, the row at position [i] of the answer as
    sheet row [i + 2], and it ends without an exception. *)
Theorem update_sheet_row_order (env : environment) (sid sess : str)
    (force : bool) (rows : list row) :
  outcome (get_google_sheets_service env) = Ok tt →
  values_get env sid read_range = Ok rows →
  rows ≠ [] →
  update_sheet env sid sess false force
  = ([SheetGet sid read_range]
     ++ concat (turn_traces env sid sess force 2 rows), Ok tt).
Proof.
  intros Hservice Hread Hrows.
  rewrite update_sheet_cases, Hservice, Hread. by destruct rows.
Qed.

Lemma update_sheet_row_order_witness :
  update_sheet env_three_rows (py "sheet") (py "session") false false
  = ([SheetGet (py "sheet") read_range]
     ++ concat (turn_traces env_three_rows (py "sheet") (py "session") false
                  2 [[py "ada"]; []; [py "  "]]), Ok tt).
Proof. apply update_sheet_row_order; [reflexivity | reflexivity | done]. Defined.

(** ** Rows at the edges *)

(** X12: a row without cells (an empty sheet row between filled ones) makes
    [row[0]] raise [IndexError]; the handler of the turn prints it, and the
    turn starts no lookup and writes nothing. *)
Theorem empty_row_is_caught (env : environment) (sid sess : str)
    (force : bool) (idx : nat) :
  process_row env sid sess force idx []
  = (trace (batch_pause idx) ++ [Print (ErrorProcessingRow idx IndexError)],
     Ok tt).
Proof. by rewrite process_row_cases. Qed.

(** X13: a row whose first cell is blank (empty or white space only) and
    that is not skipped as enriched still waits [RATE_LIMIT_DELAY] seconds,
    then the fetch prints that it skips the empty username: no lookup is
    started and nothing is written. *)
Theorem blank_username_row (env : environment) (sid sess : str)
    (force : bool) (idx : nat) (r : row) (cell : str) :
  r !! 0 = Some cell →
  strip cell = [] →
  has_data r && negb force = false →
  process_row env sid sess force idx r
  = (trace (batch_pause idx)
     ++ [Print (WaitingBeforeRequest RATE_LIMIT_DELAY);
         Sleep RATE_LIMIT_DELAY;
         Print SkippingEmptyUsername], Ok tt).
Proof.
  intros Hcell Hblank Hskip.
  rewrite process_row_cases, Hcell, Hskip. cbn zeta.
  by rewrite get_instagram_data_cases, Hblank.
Qed.

Lemma blank_username_row_witness :
  process_row env_three_rows (py "sheet") (py "session") false 4 [py "  "]
  = (trace (batch_pause 4)
     ++ [Print (WaitingBeforeRequest RATE_LIMIT_DELAY);
         Sleep RATE_LIMIT_DELAY;
         Print SkippingEmptyUsername], Ok tt).
Proof. apply (blank_username_row _ _ _ _ _ _ (py "  ")); reflexivity. Defined.

(** ** The writes and the lookups of a run *)

Lemma py_inj (s1 s2 : string) : py s1 = py s2 → s1 = s2.
Proof.
  unfold py. intros H.
  rewrite <- (string_of_list_ascii_of_string s1),
          <- (string_of_list_ascii_of_string s2).
  f_equal. revert H.
  generalize (list_ascii_of_string s1) (list_ascii_of_string s2).
  induction l as [|a l IH]; intros [|b l']; try done.
  intros [= Hab Hl]. f_equal; [| by apply IH].
  by rewrite <- (ascii_N_embedding a), <- (ascii_N_embedding b), Hab.
Qed.

Lemma str_of_nat_inj (n m : nat) : str_of_nat n = str_of_nat m → n = m.
Proof.
  unfold str_of_nat. intros H%py_inj.
  apply (f_equal NilEmpty.uint_of_string) in H.
  rewrite !NilEmpty.usu in H. injection H as H.
  by rewrite <- (DecimalNat.Unsigned.of_to n),
             <- (DecimalNat.Unsigned.of_to m), H.
Qed.

(** Two sheet rows never share their write range. *)
Lemma range_name_inj (i j : nat) : range_name i = range_name j → i = j.
Proof.
  unfold range_name. intros H. apply app_inv_head in H.
  apply str_of_nat_inj.
  assert (length (str_of_nat i) = length (str_of_nat j)) as Hlen.
  { apply (f_equal length) in H. rewrite !length_app in H. lia. }
  by apply app_inj_1 in H as [H _].
Qed.

Lemma update_ranges_quiet (t : list event) :
  (∀ e, e ∈ t → is_update e = false) → update_ranges t = [].
Proof.
  induction t as [|e t IH]; [done |]. intros Hquiet.
  unfold update_ranges. cbn [omap list_omap].
  assert (is_update e = false) as He by (apply Hquiet; left).
  destruct e; try done; apply IH; intros e' Hin; apply Hquiet; by right.
Qed.

Lemma update_ranges_app (t1 t2 : list event) :
  update_ranges (t1 ++ t2) = update_ranges t1 ++ update_ranges t2.
Proof. apply omap_app. Qed.

Lemma process_row_update_ranges (env : environment) (sid sess : str)
    (force : bool) (idx : nat) (r : row) :
  update_ranges (trace (process_row env sid sess force idx r))
  `sublist_of` [range_name idx].
Proof.
  assert (update_ranges (trace (batch_pause idx)) = []) as Hpause.
  { apply update_ranges_quiet. intros e Hin.
    by apply batch_pause_quiet in Hin as [_ ?]. }
  assert (∀ run u, update_ranges (trace (get_instagram_data run u sess)) = [])
    as Hfetch.
  { intros run u. apply update_ranges_quiet. intros e.
    apply get_instagram_data_no_update. }
  rewrite process_row_cases.
  destruct (r !! 0) as [cell |];
    [| cbn [trace fst]; rewrite update_ranges_app, Hpause;
       apply sublist_nil_l].
  destruct (has_data r && negb force);
    [cbn [trace fst]; rewrite update_ranges_app, Hpause;
     apply sublist_nil_l |].
  cbn zeta.
  destruct (outcome (get_instagram_data _ _ _)) as [[data |] | e];
    [destruct (bool_decide (data ≠ ∅));
     [destruct (values_update _ _ _ _) |] | |];
    cbn [trace fst]; rewrite !update_ranges_app, Hpause, Hfetch;
    cbn; try apply sublist_nil_l; done.
Qed.

Lemma for_rows_update_ranges (env : environment) (sid sess : str)
    (force : bool) (idx : nat) (rows : list row) :
  update_ranges (trace (for_rows (process_row env sid sess force) idx rows))
  `sublist_of` (range_name <$> seq idx (length rows)).
Proof.
  revert idx. induction rows as [|r rest IH]; intros idx; [done |].
  rewrite for_rows_cons. cbn [trace fst length seq].
  rewrite update_ranges_app, fmap_cons.
  apply (sublist_app _ [range_name idx]);
    [apply process_row_update_ranges | apply IH].
Qed.

(** X14: in one run the writes go to the ranges of the sheet rows 2, 3, ...
    in rising order, at most one write for each row read, and no range is
    written twice. *)
Theorem writes_in_row_order (env : environment) (sid sess : str)
    (test force : bool) (rows : list row) :
  values_get env sid read_range = Ok rows →
  update_ranges (trace (update_sheet env sid sess test force))
  `sublist_of` (range_name <$> seq 2 (length rows))
  ∧ NoDup (update_ranges (trace (update_sheet env sid sess test force))).
Proof.
  intros Hread.
  assert (update_ranges (trace (update_sheet env sid sess test force))
          `sublist_of` (range_name <$> seq 2 (length rows))) as Hsub.
  { rewrite update_sheet_cases, Hread.
    destruct (outcome (get_google_sheets_service env));
      [| apply sublist_nil_l].
    destruct rows as [|r rest]; [apply sublist_nil_l |].
    destruct test; cbn [trace fst app].
    - change (update_ranges (SheetGet sid read_range :: Print TestModeFirstRow
                :: trace (process_row env sid sess force 2 r)))
        with (update_ranges (trace (process_row env sid sess force 2 r))).
      etrans; [apply process_row_update_ranges |].
      cbn [length seq fmap list_fmap]. apply sublist_skip, sublist_nil_l.
    - rewrite <- for_rows_trace.
      apply (for_rows_update_ranges env sid sess force 2 (r :: rest)). }
  split; [exact Hsub |].
  eapply sublist_NoDup; [| exact Hsub].
  apply NoDup_fmap_2_strong; [| apply NoDup_seq].
  intros i j _ _. apply range_name_inj.
Qed.

Lemma writes_in_row_order_witness :
  update_ranges (trace (update_sheet env_three_rows (py "sheet")
                          (py "session") false false))
  `sublist_of` (range_name <$> seq 2 (length [[py "ada"]; []; [py "  "]]))
  ∧ NoDup (update_ranges (trace (update_sheet env_three_rows (py "sheet")
                                   (py "session") false false))).
Proof. apply writes_in_row_order. reflexivity. Defined.

(** A run of the example: the first row is written, the empty row is
    caught, the blank username is skipped by the fetch. *)
Example three_rows_ranges :
  update_ranges (trace (update_sheet env_three_rows (py "sheet")
                          (py "session") false false))
  = [py "G2:S2"].
Proof. vm_compute. reflexivity. Qed.

Lemma process_row_without_data (env : environment) (sid sess : str)
    (idx : nat) (r : row) :
  has_data r = false →
  process_row env sid sess true idx r = process_row env sid sess false idx r.
Proof. intros Hdata. by rewrite !process_row_cases, Hdata. Qed.

Lemma for_rows_without_data (env : environment) (sid sess : str)
    (idx : nat) (rows : list row) :
  Forall (λ r, has_data r = false) rows →
  for_rows (process_row env sid sess true) idx rows
  = for_rows (process_row env sid sess false) idx rows.
Proof.
  intros Hrows. revert idx.
  induction Hrows as [|r rest Hr _ IH]; intros idx; [done |].
  cbn [for_rows]. by rewrite process_row_without_data, IH.
Qed.

(** X15: the force flag changes nothing on a sheet none of whose rows holds
    enrichment (no row with more than five cells and a non-empty cell from
    position 5 on): the run with the flag is the run without it. *)
Theorem force_only_matters_for_enriched (env : environment) (sid sess : str)
    (test : bool) (rows : list row) :
  values_get env sid read_range = Ok rows →
  Forall (λ r, has_data r = false) rows →
  update_sheet env sid sess test true = update_sheet env sid sess test false.
Proof.
  intros Hread Hrows. rewrite !update_sheet_cases, Hread.
  destruct (outcome (get_google_sheets_service env)); [| done].
  destruct rows as [|r rest]; [done |].
  destruct test.
  - rewrite process_row_without_data; [done |].
    by apply Forall_cons_1 in Hrows as [? _].
  - by rewrite <- !for_rows_trace, for_rows_without_data.
Qed.

Lemma force_only_matters_for_enriched_witness :
  update_sheet env_three_rows (py "sheet") (py "session") false true
  = update_sheet env_three_rows (py "sheet") (py "session") false false.
Proof.
  apply (force_only_matters_for_enriched _ _ _ _ [[py "ada"]; []; [py "  "]]);
    [reflexivity |].
  repeat constructor.
Defined.

(** The lookup of a turn: the tool, the trimmed first cell of the row, the
    session id. *)
Lemma process_row_fetch_inv (env : environment) (sid sess : str)
    (force : bool) (idx : nat) (r : row) (args : list str) :
  SubprocessRun args ∈ trace (process_row env sid sess force idx r) →
  ∃ cell : str,
    r !! 0 = Some cell
    ∧ strip cell ≠ []
    ∧ args = [py "toutatis"; py "-u"; strip cell; py "-s"; sess].
Proof.
  rewrite process_row_cases. intros Hin.
  destruct (r !! 0) as [cell |]; [| cbn [trace fst] in Hin; fetch_cases].
  exists cell. split; [done |].
  destruct (has_data r && negb force);
    [cbn [trace fst] in Hin; fetch_cases |].
  cbn zeta in Hin. rewrite get_instagram_data_cases in Hin.
  destruct (strip cell) as [|a u] eqn:Hname.
  { cbn [trace outcome fst snd] in Hin. fetch_cases. }
  split; [done |]. cbn zeta in Hin.
  assert (toutatis_args (a :: u) sess
          = [py "toutatis"; py "-u"; a :: u; py "-s"; sess]) as Hargs.
  { unfold toutatis_args. by rewrite <- Hname, strip_idemp. }
  rewrite Hargs in Hin.
  destruct (subprocess_run env idx _) as [c | e];
    [destruct (bool_decide (returncode c ≠ 0%Z));
     [| cbn [trace outcome fst snd] in Hin;
        destruct (bool_decide _); [destruct (values_update _ _ _ _) |]] |];
    cbn [trace outcome fst snd] in Hin; fetch_cases; done.
Qed.

Lemma for_rows_fetch_inv (env : environment) (sid sess : str)
    (force : bool) (idx : nat) (rows : list row) (args : list str) :
  SubprocessRun args
  ∈ trace (for_rows (process_row env sid sess force) idx rows) →
  ∃ (r : row) (cell : str),
    r ∈ rows ∧ r !! 0 = Some cell ∧ strip cell ≠ []
    ∧ args = [py "toutatis"; py "-u"; strip cell; py "-s"; sess].
Proof.
  revert idx. induction rows as [|r rest IH]; intros idx.
  - by intros ?%elem_of_nil.
  - rewrite for_rows_cons. cbn [trace fst].
    intros [Hin | Hin]%elem_of_app.
    + apply process_row_fetch_inv in Hin as (cell & ? & ? & ?).
      exists r, cell. split; [by left | done].
    + apply IH in Hin as (r' & cell & ? & ?).
      exists r', cell. split; [by right | done].
Qed.

Lemma update_sheet_fetch_inv (env : environment) (sid sess : str)
    (test force : bool) (args : list str) :
  SubprocessRun args ∈ trace (update_sheet env sid sess test force) →
  ∃ (rows : list row) (r : row) (cell : str),
    values_get env sid read_range = Ok rows
    ∧ r ∈ rows ∧ r !! 0 = Some cell ∧ strip cell ≠ []
    ∧ args = [py "toutatis"; py "-u"; strip cell; py "-s"; sess].
Proof.
  rewrite update_sheet_cases.
  destruct (outcome (get_google_sheets_service env));
    [| by intros ?%elem_of_nil].
  destruct (values_get env sid read_range) as [[|r rest] | e];
    cbn [trace fst]; intros Hin; [by fetch_cases | | by fetch_cases].
  exists (r :: rest).
  destruct test; cbn [trace fst app] in Hin; fetch_cases.
  - apply process_row_fetch_inv in Hin as (cell & ? & ? & ?).
    exists r, cell. split; [done |]. split; [by left | done].
  - rewrite <- for_rows_trace in Hin.
    apply for_rows_fetch_inv in Hin as (r' & cell & ? & ?).
    by exists r', cell.
Qed.

(** X16: every lookup of a run is the command [toutatis -u <username> -s
    <session>] with the session id given to [update_sheet] and, as
    username, the first cell of a row of the sheet with the white space at
    its ends removed; that username is never empty. *)
Theorem lookups_use_row_and_session (env : environment) (sid sess : str)
    (test force : bool) (args : list str) :
  SubprocessRun args ∈ trace (update_sheet env sid sess test force) →
  ∃ (rows : list row) (r : row) (cell : str),
    values_get env sid read_range = Ok rows
    ∧ r ∈ rows ∧ r !! 0 = Some cell ∧ strip cell ≠ []
    ∧ args = [py "toutatis"; py "-u"; strip cell; py "-s"; sess].
Proof. apply update_sheet_fetch_inv. Qed.

Lemma lookups_use_row_and_session_witness :
  ∃ (rows : list row) (r : row) (cell : str),
    values_get env_three_rows (py "sheet") read_range = Ok rows
    ∧ r ∈ rows ∧ r !! 0 = Some cell ∧ strip cell ≠ []
    ∧ [py "toutatis"; py "-u"; py "ada"; py "-s"; py "session"]
      = [py "toutatis"; py "-u"; strip cell; py "-s"; py "session"].
Proof.
  apply (lookups_use_row_and_session env_three_rows (py "sheet")
           (py "session") false false).
  apply list_elem_of_In. vm_compute. tauto.
Defined.

(** ** The entry point *)

(** X17: when [INSTAGRAM_SESSION_ID] is not in the environment, or is
    empty, the script raises [ValueError] while it builds its argument
    parser, whatever the command line holds, a [--session] value included:
    the sheet is not read and no lookup is started. *)
Theorem main_needs_session_variable (env : environment)
    (argv : command_line) :
  getenv env (py "INSTAGRAM_SESSION_ID") = None
  ∨ getenv env (py "INSTAGRAM_SESSION_ID") = Some [] →
  main env argv = ([], Raise ValueError).
Proof.
  intros Hunset. unfold main, get_session_id.
  by destruct Hunset as [-> | ->].
Qed.

Lemma main_needs_session_variable_witness :
  main env_no_credentials
    (CommandLine None (Some (py "given-on-the-command-line")) false false)
  = ([], Raise ValueError).
Proof. apply main_needs_session_variable. by left. Defined.

(** X18: with [INSTAGRAM_SESSION_ID] set, every lookup of the script uses
    the value of [--session] when the option is given and the value of the
    variable when it is not. *)
Theorem main_session_choice (env : environment) (argv : command_line)
    (from_env : str) (args : list str) :
  getenv env (py "INSTAGRAM_SESSION_ID") = Some from_env →
  SubprocessRun args ∈ trace (main env argv) →
  ∃ username : str,
    args = [py "toutatis"; py "-u"; username; py "-s";
            default from_env (opt_session argv)].
Proof.
  intros Henv. unfold main, get_session_id. rewrite Henv.
  destruct from_env as [|c s]; [by intros ?%elem_of_nil |].
  rewrite io_ret_bind. cbn zeta.
  intros (rows & r & cell & _ & _ & _ & _ & ->)
    %update_sheet_fetch_inv.
  by eexists.
Qed.

Lemma main_session_choice_witness :
  ∃ username : str,
    [py "toutatis"; py "-u"; py "ada"; py "-s"; py "from-cli"]
    = [py "toutatis"; py "-u"; username; py "-s";
       default (py "set") (opt_session
         (CommandLine None (Some (py "from-cli")) true false))].
Proof.
  apply (main_session_choice env_three_rows
           (CommandLine None (Some (py "from-cli")) true false));
    [reflexivity |].
  apply list_elem_of_In. vm_compute. tauto.
Defined.

(** ** When a turn writes *)

(** X19: a turn whose fetch gives a non-empty mapping and whose write
    succeeds is the wait, the fetch, the write of the row to [G<idx>:S<idx>],
    the line that reports it and a sleep of two seconds, in this order. *)
Theorem successful_turn (env : environment) (sid sess : str) (force : bool)
    (idx : nat) (r : row) (cell : str) (data : dict) :
  r !! 0 = Some cell →
  has_data r && negb force = false →
  outcome (get_instagram_data (subprocess_run env idx) (strip cell) sess)
  = Ok (Some data) →
  data ≠ ∅ →
  values_update env sid (range_name idx) [row_values data] = Ok tt →
  process_row env sid sess force idx r
  = (trace (batch_pause idx)
     ++ [Print (WaitingBeforeRequest RATE_LIMIT_DELAY); Sleep RATE_LIMIT_DELAY]
     ++ trace (get_instagram_data (subprocess_run env idx) (strip cell) sess)
     ++ [SheetUpdate sid (range_name idx) [row_values data];
         Print (UpdatedData (strip cell)); Sleep 2],
     Ok tt).
Proof.
  intros Hcell Hskip Hfetch Hdata Hwrite.
  rewrite process_row_cases, Hcell, Hskip. cbn zeta.
  rewrite Hfetch, bool_decide_eq_true_2, Hwrite by done.
  by rewrite <- !app_assoc.
Qed.

Lemma successful_turn_witness :
  process_row env_three_rows (py "sheet") (py "session") false 2 [py "ada"]
  = (trace (batch_pause 2)
     ++ [Print (WaitingBeforeRequest RATE_LIMIT_DELAY); Sleep RATE_LIMIT_DELAY]
     ++ trace (get_instagram_data (subprocess_run env_three_rows 2)
                 (strip (py "ada")) (py "session"))
     ++ [SheetUpdate (py "sheet") (range_name 2)
           [row_values (foldl assign ∅
                          (str_split newline full_stdout ≫= line_entries))];
         Print (UpdatedData (strip (py "ada"))); Sleep 2],
     Ok tt).
Proof.
  apply successful_turn; [reflexivity | reflexivity | reflexivity | |
                          reflexivity].
  apply foldl_assign_non_empty. vm_compute. discriminate.
Defined.

(** X20: a turn issues an update call exactly when its row has a first cell
    that is not blank, the row is not skipped as enriched, the lookup exits
    with code 0 and some line of what it printed holds a colon. *)
Theorem turn_writes_iff (env : environment) (sid sess : str) (force : bool)
    (idx : nat) (r : row) :
  (∃ s rg vals,
     SheetUpdate s rg vals ∈ trace (process_row env sid sess force idx r))
  ↔ ∃ (cell : str) (c : completed) (line : str),
      r !! 0 = Some cell
      ∧ strip cell ≠ []
      ∧ has_data r && negb force = false
      ∧ subprocess_run env idx (toutatis_args (strip cell) sess) = Ok c
      ∧ returncode c = 0%Z
      ∧ line ∈ str_split newline (stdout c)
      ∧ str_in colon line = true.
Proof.
  split.
  - intros (s & rg & vals & Hin).
    apply process_row_update_inv in Hin
      as (cell & data & Hcell & Hskip & Hfetch & Hdata & _).
    exists cell. rewrite get_instagram_data_cases in Hfetch.
    destruct (strip cell) as [|a u] eqn:Hname; [done |]. cbn zeta in Hfetch.
    destruct (subprocess_run env idx _) as [c | e]; [| done].
    exists c.
    destruct (bool_decide (returncode c ≠ 0%Z)) eqn:Hcode; [done |].
    apply bool_decide_eq_false, dec_stable in Hcode.
    injection Hfetch as <-.
    destruct (decide (Exists (λ line, str_in colon line = true)
                        (str_split newline (stdout c))))
      as [(line & Hline & Hcolon)%Exists_exists | Hnone].
    + exists line. by repeat split.
    + exfalso. apply Hdata, entries_empty_iff. intros line Hline.
      apply not_true_is_false. intros Hcolon. apply Hnone, Exists_exists.
      by exists line.
  - intros (cell & c & line & Hcell & Hname & Hskip & Hrun & Hcode & Hline
            & Hcolon).
    exists sid, (range_name idx),
      [row_values (foldl assign ∅
                     (str_split newline (stdout c) ≫= line_entries))].
    rewrite process_row_cases, Hcell, Hskip. cbn zeta.
    rewrite get_instagram_data_cases.
    destruct (strip cell) as [|a u] eqn:Hu; [done |]. cbn zeta.
    rewrite Hrun, Hcode.
    destruct (bool_decide (0%Z ≠ 0%Z)) eqn:Hzero;
      [by apply bool_decide_eq_true in Hzero |].
    cbn [outcome snd trace fst]. rewrite bool_decide_eq_true_2.
    + destruct (values_update _ _ _ _); cbn [trace fst];
        rewrite !elem_of_app, !elem_of_cons; tauto.
    + intros Hempty.
      pose proof (proj1 (entries_empty_iff _) Hempty line Hline) as Hno.
      congruence.
Qed.

(** X21: the long pause opens the turns of the sheet rows 12, 22, 32, ...
    and of no other row, whatever the rows hold. *)
Theorem batch_pause_rows (idx : nat) :
  (batch_pause idx
   = ([Print (TakingBreak BATCH_DELAY); Sleep BATCH_DELAY], Ok tt)
   ↔ ∃ k, 0 < k ∧ idx = 2 + BATCH_SIZE * k)
  ∧ (batch_pause idx = ([], Ok tt)
     ↔ ¬ ∃ k, 0 < k ∧ idx = 2 + BATCH_SIZE * k).
Proof.
  assert (((idx - 2) mod BATCH_SIZE =? 0) && (2 <? idx) = true
          ↔ ∃ k, 0 < k ∧ idx = 2 + BATCH_SIZE * k) as Hcond.
  { rewrite andb_true_iff, Nat.eqb_eq, Nat.ltb_lt. unfold BATCH_SIZE. split.
    - intros [Hmod Hlt]. exists ((idx - 2) / 10).
      pose proof (Nat.div_mod_eq (idx - 2) 10) as Hdiv. lia.
    - intros (k & Hk & ->). split; [| lia].
      replace (2 + 10 * k - 2) with (k * 10) by lia.
      apply Nat.Div0.mod_mul. }
  unfold batch_pause.
  destruct (((idx - 2) mod BATCH_SIZE =? 0) && (2 <? idx)) eqn:E.
  - split; [by rewrite <- Hcond |]. split; [done |].
    intros Hno. exfalso. apply Hno. by apply Hcond.
  - split; [split; [done |] |].
    + intros Hk. apply Hcond in Hk. done.
    + split; [| done]. intros _ Hk. apply Hcond in Hk. done.
Qed.
